(** * DynamicDetailsModal: the schema-driven details dialog

    A shallow embedding of [src/components/common/DynamicDetailsModal.tsx]:
    the value formatter [formatValue], the four column buckets
    ([basicFields], [mediaFields], [metaFields], [otherFields]), the section
    renderer, the dialog title, the body with its separators and the action
    bar, followed by the properties the specification states about them.

    The component returns a JSX tree; the embedding returns that tree as a
    value of [Node], elements keeping the names of the components they
    instantiate ([Badge], [Image], [Separator], ...).

    After the dialog come the parts of the sign-up form
    ([getPasswordStrength], its indicator, the key and paste handlers) and
    the submission of the forgotten-password form, with their properties. *)

From Stdlib Require Import String Ascii List Bool Arith Lia Permutation.
From Stdlib Require Import DecimalString.
Import ListNotations.
Open Scope list_scope.
Open Scope string_scope.

Set Implicit Arguments.
Set Warnings "-register-all".

(** Decimal digits of a natural number (an array length or index). *)
Definition nat_String (n : nat) : string :=
  NilEmpty.string_of_uint (Nat.to_uint n).

(** ** The host environment

    What the component takes from the JavaScript runtime and from modules
    that are not part of the component: the number type with its conversions,
    date parsing and locale formatting, the class-name combinator [cn] of
    [@/lib/utils], and the state that event callbacks act on. *)
Class JsHost : Type := {
  (** IEEE doubles. *)
  number : Type;
  (** [false] exactly on [0], [-0] and [NaN]. *)
  number_truthy : number -> bool;
  (** [String(n)]. *)
  Number_toString : number -> string;
  (** The number an array length or index is. *)
  number_of_nat : nat -> number;
  Number_toString_of_nat :
    forall n : nat, Number_toString (number_of_nat n) = nat_String n;
  (** [n.toLocaleString()]. *)
  Number_toLocaleString : number -> string;
  (** The time value of [new Date(s)]; [None] is the invalid date. *)
  Date_parse : string -> option number;
  (** [d.toLocaleDateString()] of a valid date with the given time value. *)
  Date_format : number -> string;
  (** [String(f)] of the built-in function of the given name. *)
  Function_toString : string -> string;
  (** [cn(base, extra)]. *)
  cn : string -> option string -> string;
  (** Everything outside the component that a callback can change. *)
  World : Type
}.

(** ** Exceptions *)

Inductive exn : Type :=
| TypeError (msg : string).

Inductive result (A : Type) : Type :=
| Ok (a : A)
| Throw (e : exn).

Arguments Ok {A} a.
Arguments Throw {A} e.

Definition bind {A B : Type} (r : result A) (k : A -> result B) : result B :=
  match r with
  | Ok a => k a
  | Throw e => Throw e
  end.

Notation "x <- r ;; k" := (bind r (fun x => k))
  (at level 61, r at next level, right associativity).

Fixpoint mapM {A B : Type} (f : A -> result B) (l : list A) : result (list B) :=
  match l with
  | [] => Ok []
  | a :: l' => b <- f a ;; bs <- mapM f l' ;; Ok (b :: bs)
  end.

(** ** JavaScript values *)

Inductive jsval `{JsHost} : Type :=
| VNull
| VUndefined
| VBool (b : bool)
| VNumber (n : number)
| VString (s : string)
| VArray (elems : list jsval)
| VObject (fields : list (string * jsval)).

(** [GenericDataItem]: a plain object holding data: an open mapping from
    field keys to values, in insertion order. *)
Definition Record `{JsHost} : Type := list (string * jsval).

(** What reading a property of a record gives: a data value, or a member of
    [Object.prototype] reached through the prototype chain, which is a
    built-in function or, under [__proto__], the prototype itself. Records,
    arrays and nested mappings hold data only. *)
Inductive Value `{JsHost} : Type :=
| Data (v : jsval)
| Builtin (name : string)
| ObjectPrototype.

Coercion Data : jsval >-> Value.

(** [value === null || value === undefined]. *)
Definition is_nullish `{JsHost} (v : Value) : bool :=
  match v with
  | Data VNull | Data VUndefined => true
  | _ => false
  end.

(** Truthiness of a string: the empty string is falsy. *)
Definition string_truthy (s : string) : bool :=
  match s with
  | EmptyString => false
  | String _ _ => true
  end.

Definition truthy `{JsHost} (v : jsval) : bool :=
  match v with
  | VNull | VUndefined => false
  | VBool b => b
  | VNumber n => number_truthy n
  | VString s => string_truthy s
  | VArray _ | VObject _ => true
  end.

(** The own property [k] of a mapping, if it has one. *)
Fixpoint own `{JsHost} (o : list (string * jsval)) (k : string)
  : option jsval :=
  match o with
  | [] => None
  | (k', v) :: o' => if String.eqb k' k then Some v else own o' k
  end.

(** The function-valued members of [Object.prototype]: the property key and
    the name of the built-in function it holds. *)
Definition objectPrototypeFunctions : list (string * string) :=
  [ ("constructor", "Object");
    ("hasOwnProperty", "hasOwnProperty");
    ("isPrototypeOf", "isPrototypeOf");
    ("propertyIsEnumerable", "propertyIsEnumerable");
    ("toLocaleString", "toLocaleString");
    ("toString", "toString");
    ("valueOf", "valueOf");
    ("__defineGetter__", "__defineGetter__");
    ("__defineSetter__", "__defineSetter__");
    ("__lookupGetter__", "__lookupGetter__");
    ("__lookupSetter__", "__lookupSetter__") ].

Fixpoint assoc (k : string) (l : list (string * string)) : option string :=
  match l with
  | [] => None
  | (k', v) :: l' => if String.eqb k' k then Some v else assoc k l'
  end.

(** What a plain object inherits under the key [k]. *)
Definition inherited `{JsHost} (k : string) : Value :=
  if String.eqb k "__proto__" then ObjectPrototype
  else
    match assoc k objectPrototypeFunctions with
    | Some name => Builtin name
    | None => Data VUndefined
    end.

(** [o[k]]: the own property [k] of [o], else what [o] inherits from
    [Object.prototype], else [undefined]. *)
Definition get `{JsHost} (o : Record) (k : string) : Value :=
  match own o k with
  | Some v => Data v
  | None => inherited k
  end.

(** A property key that may be [undefined] is converted to a string. *)
Definition prop_key (k : option string) : string :=
  match k with
  | Some s => s
  | None => "undefined"
  end.

(** [xs.join(sep)] on strings. *)
Fixpoint join (sep : string) (xs : list string) : string :=
  match xs with
  | [] => ""
  | [x] => x
  | x :: xs' => x ++ sep ++ join sep xs'
  end.

Definition cannotConvert : exn :=
  TypeError "Cannot convert object to primitive value".

(** The string of a data value. An array is joined with commas, [null] and
    [undefined] elements giving empty strings, the others their own
    strings. A mapping without an own [toString] inherits the one that
    gives ["[object Object]"]; with an own [toString], which as data is not
    callable, it is left with the inherited [valueOf], or an own one that is
    not callable either, and the conversion raises. *)
Fixpoint ToString `{JsHost} (v : jsval) : result string :=
  match v with
  | VNull => Ok "null"
  | VUndefined => Ok "undefined"
  | VBool true => Ok "true"
  | VBool false => Ok "false"
  | VNumber n => Ok (Number_toString n)
  | VString s => Ok s
  | VArray elems =>
      strings <-
        (fix elts (l : list jsval) : result (list string) :=
           match l with
           | [] => Ok []
           | e :: l' =>
               s <- match e with
                    | VNull | VUndefined => Ok ""
                    | _ => ToString e
                    end ;;
               ss <- elts l' ;;
               Ok (s :: ss)
           end) elems ;;
      Ok (join "," strings)
  | VObject fields =>
      match own fields "toString" with
      | Some _ => Throw cannotConvert
      | None => Ok "[object Object]"
      end
  end.

(** The string of an array element, as [join] takes it. *)
Definition elementString `{JsHost} (e : jsval) : result string :=
  match e with
  | VNull | VUndefined => Ok ""
  | _ => ToString e
  end.

(** [String(v)]. *)
Definition String_ `{JsHost} (v : Value) : result string :=
  match v with
  | Data d => ToString d
  | Builtin name => Ok (Function_toString name)
  | ObjectPrototype => Ok "[object Object]"
  end.

(** *** String helpers *)

(** [s.startsWith(p)]. *)
Fixpoint startsWith (s p : string) : bool :=
  match p, s with
  | EmptyString, _ => true
  | String _ _, EmptyString => false
  | String a p', String b s' => Ascii.eqb a b && startsWith s' p'
  end.

(** [s.includes(p)]. *)
Fixpoint includes_str (s p : string) : bool :=
  startsWith s p ||
  match s with
  | EmptyString => false
  | String _ s' => includes_str s' p
  end.

(** A string is a sequence of code units below 256. The white space that
    [trim] removes among them: tab, line feed, vertical tab, form feed,
    carriage return, space and the no-break space. *)
Definition is_space (c : ascii) : bool :=
  let n := nat_of_ascii c in
  (Nat.leb 9 n && Nat.leb n 13) || Nat.eqb n 32 || Nat.eqb n 160.

Fixpoint trimStart (s : string) : string :=
  match s with
  | EmptyString => EmptyString
  | String c s' => if is_space c then trimStart s' else s
  end.

Fixpoint trimEnd (s : string) : string :=
  match s with
  | EmptyString => EmptyString
  | String c s' =>
      match trimEnd s' with
      | EmptyString => if is_space c then EmptyString else String c EmptyString
      | t => String c t
      end
  end.

(** [s.trim()]. *)
Definition trim (s : string) : string := trimEnd (trimStart s).

Definition newline : ascii := ascii_of_nat 10.

(** [s.replace(/\n/g, "<br>")]. *)
Fixpoint replace_newlines (s : string) : string :=
  match s with
  | EmptyString => EmptyString
  | String c s' =>
      if Ascii.eqb c newline then "<br>" ++ replace_newlines s'
      else String c (replace_newlines s')
  end.

(** ** The presentation tree *)

(** The value of a JSX attribute. *)
Inductive PropVal `{JsHost} : Type :=
| PUndefined
| PStr (s : string)
| PBool (b : bool)
| PNat (n : nat)
| PStyle (decls : list (string * string))
| PInnerHTML (html : string)
| PHandler (h : World -> World).

(** A React node. [NText] is a text child, which the rendering layer
    escapes; markup reaches it only through the [dangerouslySetInnerHTML]
    attribute, a [PInnerHTML]. *)
Inductive Node `{JsHost} : Type :=
| NNull
| NUndefined
| NBool (b : bool)
| NNumber (n : number)
| NText (s : string)
| NArray (items : list Node)
| NElem (tag : string) (props : list (string * PropVal)) (children : list Node).

(** Truthiness of a node, as [||] and [&&] test it. *)
Definition node_truthy `{JsHost} (n : Node) : bool :=
  match n with
  | NNull | NUndefined => false
  | NBool b => b
  | NNumber x => number_truthy x
  | NText s => string_truthy s
  | NArray _ | NElem _ _ _ => true
  end.

(** [a && b]. *)
Definition js_and `{JsHost} (a b : Node) : Node :=
  if node_truthy a then b else a.

(** [a || b]. *)
Definition js_or `{JsHost} (a b : Node) : Node :=
  if node_truthy a then a else b.

(** An optional node-valued field: [undefined] when absent. *)
Definition optNode `{JsHost} (o : option Node) : Node :=
  match o with
  | Some n => n
  | None => NUndefined
  end.

(** [className="..."]. *)
Definition className `{JsHost} (s : string) : string * PropVal :=
  ("className", PStr s).

(** [xs.map((x, index) => f x index)]. *)
Fixpoint mapi_from {A B : Type} (i : nat) (f : A -> nat -> B) (l : list A)
  : list B :=
  match l with
  | [] => []
  | a :: l' => f a i :: mapi_from (S i) f l'
  end.

Definition mapi {A B : Type} (f : A -> nat -> B) (l : list A) : list B :=
  mapi_from 0 f l.

(** The same with a function that can raise: the first to raise ends the
    traversal. *)
Fixpoint mapiM_from {A B : Type} (i : nat) (f : A -> nat -> result B)
  (l : list A) : result (list B) :=
  match l with
  | [] => Ok []
  | a :: l' => b <- f a i ;; bs <- mapiM_from (S i) f l' ;; Ok (b :: bs)
  end.

Definition mapiM {A B : Type} (f : A -> nat -> result B) (l : list A)
  : result (list B) :=
  mapiM_from 0 f l.

(** [xs.find(p)] with a test that can raise. *)
Fixpoint findM {A : Type} (p : A -> result bool) (xs : list A)
  : result (option A) :=
  match xs with
  | [] => Ok None
  | x :: xs' => b <- p x ;; if b then Ok (Some x) else findM p xs'
  end.

(** ** Column, option and action descriptors *)

Module ColumnType.
(** Modelled from the spec: the [type] field of [ColumnConfig], whose
    declaration ([@/types/dynamicCardTypes]) is not among the sources. The
    formatter switches on the five names below; [untyped] stands for an
    absent type and for every other name, which all take the default
    branch. *)
Inductive t : Type :=
| date
| url
| select
| image
| textarea
| untyped.

Definition eqb (a b : t) : bool :=
  match a, b with
  | date, date | url, url | select, select | image, image
  | textarea, textarea | untyped, untyped => true
  | _, _ => false
  end.
End ColumnType.

Module SelectOption.
(** Modelled from the spec: an entry of [ColumnConfig.options], declared in
    [@/types/dynamicCardTypes]: [{value, label, optional color, optional
    icon}]. *)
Record t `{JsHost} : Type := mk {
  value : string;
  label : string;
  color : option string;
  icon : option Node
}.
End SelectOption.

Module ColumnConfig.
(** Modelled from the spec: [ColumnConfig] of [@/types/dynamicCardTypes],
    with the fields the component reads: [key], [label], [type], [options]
    and the optional custom [render] of a value and the record. A [render]
    is a function to nodes: one that raises is outside the model. *)
Record t `{JsHost} : Type := mk {
  key : string;
  label : string;
  type : ColumnType.t;
  options : option (list SelectOption.t);
  render : option (Value -> Record -> Node)
}.
End ColumnConfig.

Module ActionConfig.
(** Modelled from the spec: [ActionConfig] of [@/types/dynamicCardTypes]:
    [key], [label], [variant], optional [icon], the side-effecting
    [onClick(record)] and the optional visibility [condition(record)]. The
    effect of [onClick] is a change of the world; the callbacks return, one
    that raises is outside the model. *)
Record t `{JsHost} : Type := mk {
  key : string;
  label : string;
  variant : option string;
  icon : option Node;
  onClick : Record -> World -> World;
  condition : option (Record -> bool)
}.
End ActionConfig.

(** Reading a property of a value that may be [undefined]. *)
Definition deref {A : Type} (o : option A) (prop : string) : result A :=
  match o with
  | Some a => Ok a
  | None =>
      Throw (TypeError
               ("Cannot read properties of undefined (reading '" ++ prop ++ "')"))
  end.

(** [new Date(s).toLocaleDateString()]. *)
Definition toLocaleDateString `{JsHost} (s : string) : string :=
  match Date_parse s with
  | Some t => Date_format t
  | None => "Invalid Date"
  end.

(** ** The value formatter *)

Definition notProvided `{JsHost} : Node :=
  NElem "span" [className "text-muted-foreground italic"] [NText "Not provided"].

Definition noImage `{JsHost} : Node :=
  NElem "span" [className "text-muted-foreground italic"] [NText "No image"].

Definition noneSentinel `{JsHost} : Node :=
  NElem "span" [className "text-muted-foreground italic"] [NText "None"].

Definition noneProvided `{JsHost} : Node :=
  NElem "span" [className "text-muted-foreground italic"] [NText "None provided"].

(** [value.startsWith("data:") || value.startsWith("blob:")]. *)
Definition unoptimized (src : string) : bool :=
  startsWith src "data:" || startsWith src "blob:".

(** The [date] case, [s] being [String(value)]. *)
Definition dateNode `{JsHost} (s : string) : Node :=
  NElem "div" [className "flex items-center gap-2"]
    [ NElem "Calendar" [className "h-4 w-4 text-muted-foreground"] [];
      NElem "span" [] [NText (toLocaleDateString s)] ].

(** The [url] case, [s] being [String(value)]. *)
Definition urlNode `{JsHost} (s : string) : Node :=
  NElem "a"
    [ ("href", PStr s);
      ("target", PStr "_blank");
      ("rel", PStr "noopener noreferrer");
      className "inline-flex items-center gap-1 text-primary hover:underline" ]
    [ NText s;
      NElem "ExternalLink" [className "h-3 w-3"] [] ].

(** The badge of a matching option of a [select] column. *)
Definition optionBadge `{JsHost} (option : SelectOption.t) : Node :=
  NElem "Badge"
    [ ("variant", PStr "secondary");
      ("style",
        match SelectOption.color option with
        | Some c =>
            if string_truthy c
            then PStyle [("backgroundColor", (c ++ "20")%string); ("color", c)]
            else PUndefined
        | None => PUndefined
        end) ]
    [ js_and (optNode (SelectOption.icon option))
        (NElem "span" [className "mr-1"] [optNode (SelectOption.icon option)]);
      NText (SelectOption.label option) ].

(** The badge of a [select] value that no option matches, [s] being
    [String(value)]. *)
Definition outlineBadge `{JsHost} (s : string) : Node :=
  NElem "Badge" [("variant", PStr "outline")] [NText s].

(** The [select] case. The test of [find] stringifies the value for each
    option it is asked about; the outlined badge stringifies it again. *)
Definition selectNode `{JsHost} (value : Value) (column : ColumnConfig.t)
  : result Node :=
  match ColumnConfig.options column with
  | Some opts =>
      found <- findM
                 (fun opt =>
                    s <- String_ value ;;
                    Ok (String.eqb (SelectOption.value opt) s))
                 opts ;;
      match found with
      | Some option => Ok (optionBadge option)
      | None => s <- String_ value ;; Ok (outlineBadge s)
      end
  | None => s <- String_ value ;; Ok (outlineBadge s)
  end.

(** The single image of the [image] case. *)
Definition singleImage `{JsHost} (src : string) : Node :=
  NElem "div" [className "space-y-2"]
    [ NElem "div" [className "relative w-full max-w-md mx-auto"]
        [ NElem "Image"
            [ ("src", PStr src);
              ("alt", PStr "Detail image");
              ("width", PNat 400);
              ("height", PNat 300);
              className "rounded-lg border object-cover w-full";
              ("unoptimized", PBool (unoptimized src)) ]
            [] ] ].

(** One thumbnail of the image grid. *)
Definition thumbnail `{JsHost} (img : jsval) (index : nat) : result Node :=
  src <- String_ img ;;
  Ok (NElem "div" [("key", PNat index); className "relative aspect-square"]
        [ NElem "Image"
            [ ("src", PStr src);
              ("alt", PStr ("Image " ++ nat_String (index + 1))%string);
              ("width", PNat 150);
              ("height", PNat 150);
              className "rounded-lg border object-cover w-full h-full";
              ("unoptimized", PBool (unoptimized src)) ]
            [] ]).

(** The caption under the image grid. *)
Definition imageCaption `{JsHost} (count : nat) : Node :=
  NElem "p" [className "text-sm text-muted-foreground text-center"]
    [ NNumber (number_of_nat count);
      NText " image";
      NText (if Nat.ltb 1 count then "s" else "") ].

(** The grid of the [image] case. *)
Definition imageGrid `{JsHost} (value : list jsval) : result Node :=
  thumbnails <- mapiM thumbnail value ;;
  Ok (NElem "div" [className "space-y-3"]
        [ NElem "div" [className "grid grid-cols-2 sm:grid-cols-3 gap-3"]
            [NArray thumbnails];
          imageCaption (List.length value) ]).

(** The [image] case. *)
Definition imageNode `{JsHost} (value : Value) : result Node :=
  match value with
  | Data (VString s) =>
      Ok (if string_truthy (trim s) then singleImage s else noImage)
  | Data (VArray elems) =>
      if Nat.ltb 0 (List.length elems) then imageGrid elems else Ok noImage
  | _ => Ok noImage
  end.

(** The [textarea] case, [s] being [String(value)]. *)
Definition textareaNode `{JsHost} (s : string) : Node :=
  NElem "div" [className "prose prose-sm max-w-none"]
    [ NElem "div"
        [ className "whitespace-pre-wrap text-sm leading-relaxed";
          ("dangerouslySetInnerHTML", PInnerHTML (replace_newlines s)) ]
        [] ].

(** A tag of an array value of an untyped column. *)
Definition tagBadge `{JsHost} (item : jsval) (index : nat) : result Node :=
  s <- String_ item ;;
  Ok (NElem "Badge"
        [("key", PNat index); ("variant", PStr "outline"); className "text-xs"]
        [ NElem "Tag" [className "h-3 w-3 mr-1"] [];
          NText s ]).

(** The value of a row of an object value: a link for a string that starts
    with "http", else the stringified value. *)
Definition entryValue `{JsHost} (val : jsval) : result Node :=
  match val with
  | VString s =>
      if startsWith s "http"
      then
        Ok (NElem "a"
              [ ("href", PStr s);
                ("target", PStr "_blank");
                ("rel", PStr "noopener noreferrer");
                className
                  "text-primary hover:underline text-sm flex items-center gap-1" ]
              [NText s; NElem "ExternalLink" [className "h-3 w-3"] []])
      else s' <- String_ val ;; Ok (NElem "span" [className "text-sm"] [NText s'])
  | _ => s' <- String_ val ;; Ok (NElem "span" [className "text-sm"] [NText s'])
  end.

(** A row of an object value of an untyped column. *)
Definition entryRow `{JsHost} (entry : string * jsval) : result Node :=
  let (key, val) := entry in
  shown <- entryValue val ;;
  Ok (NElem "div"
        [ ("key", PStr key);
          className
            "flex items-center justify-between p-2 rounded-md bg-muted/50" ]
        [ NElem "span" [className "font-medium capitalize text-sm"]
            [NText key; NText ":"];
          shown ]).

(** The default case: dispatch on the shape of the value. The prototype
    object has no enumerable entry; a built-in function is neither an
    array, an object, a boolean nor a number. *)
Definition defaultNode `{JsHost} (value : Value) : result Node :=
  match value with
  | Data (VArray elems) =>
      if Nat.eqb (List.length elems) 0 then Ok noneSentinel
      else
        tags <- mapiM tagBadge elems ;;
        Ok (NElem "div" [className "flex flex-wrap gap-1"] [NArray tags])
  | Data (VObject obj) =>
      let entries := List.filter (fun e => truthy (snd e)) obj in
      if Nat.eqb (List.length entries) 0 then Ok noneProvided
      else
        rows <- mapM entryRow entries ;;
        Ok (NElem "div" [className "space-y-2"] [NArray rows])
  | ObjectPrototype => Ok noneProvided
  | Data (VBool b) =>
      Ok (NElem "Badge"
            [("variant", PStr (if b then "default" else "secondary"))]
            [NText (if b then "Yes" else "No")])
  | Data (VNumber n) =>
      Ok (NElem "span" [className "font-mono"]
            [NText (Number_toLocaleString n)])
  | _ => s <- String_ value ;; Ok (NElem "span" [] [NText s])
  end.

(** [formatValue(value, column)], inside a component whose record is
    [item]. The column is an [option]: the title passes [columns[0]], which
    is [undefined] when there is no column. *)
Definition formatValue `{JsHost} (item : Record) (value : Value)
  (column : option ColumnConfig.t) : result Node :=
  if is_nullish value then Ok notProvided
  else
    col <- deref column "render" ;;
    match ColumnConfig.render col with
    | Some render => Ok (render value item)
    | None =>
        match ColumnConfig.type col with
        | ColumnType.date => s <- String_ value ;; Ok (dateNode s)
        | ColumnType.url => s <- String_ value ;; Ok (urlNode s)
        | ColumnType.select => selectNode value col
        | ColumnType.image => imageNode value
        | ColumnType.textarea => s <- String_ value ;; Ok (textareaNode s)
        | ColumnType.untyped => defaultNode value
        end
    end.

(** ** The field grouper *)

(** A column object is referred to by its address: [includes] on an array of
    columns compares references, and one object may occur twice in
    [columns]. *)
Definition loc : Type := nat.

(** The column objects, by address. *)
Definition Store `{JsHost} : Type := loc -> ColumnConfig.t.

(** [names.includes(k)] on an array of strings. *)
Definition includes (names : list string) (k : string) : bool :=
  List.existsb (String.eqb k) names.

(** [fields.includes(col)] on an array of column objects. *)
Definition includes_col (fields : list loc) (col : loc) : bool :=
  List.existsb (Nat.eqb col) fields.

Definition basicKeys : list string :=
  ["title"; "subtitle"; "name"; "email"; "phone"].

Definition metaKeys : list string :=
  ["createdAt"; "updatedAt"; "author"; "views"; "priority"; "status"].

Definition isBasic `{JsHost} (st : Store) (col : loc) : bool :=
  includes basicKeys (ColumnConfig.key (st col)).

Definition isMedia `{JsHost} (st : Store) (col : loc) : bool :=
  ColumnType.eqb (ColumnConfig.type (st col)) ColumnType.image
  || includes_str (ColumnConfig.key (st col)) "image".

Definition isMeta `{JsHost} (st : Store) (col : loc) : bool :=
  includes metaKeys (ColumnConfig.key (st col)).

Definition basicFields `{JsHost} (st : Store) (columns : list loc) : list loc :=
  List.filter (isBasic st) columns.

Definition mediaFields `{JsHost} (st : Store) (columns : list loc) : list loc :=
  List.filter (isMedia st) columns.

Definition metaFields `{JsHost} (st : Store) (columns : list loc) : list loc :=
  List.filter (isMeta st) columns.

Definition otherFields `{JsHost} (st : Store) (columns : list loc) : list loc :=
  List.filter
    (fun col =>
       negb (includes_col (basicFields st columns) col)
       && negb (includes_col (mediaFields st columns) col)
       && negb (includes_col (metaFields st columns) col))
    columns.

(** ** Sections *)

(** One labelled field of a section. *)
Definition fieldNode `{JsHost} (column : ColumnConfig.t) (formatted : Node)
  : Node :=
  NElem "div" [("key", PStr (ColumnConfig.key column)); className "space-y-2"]
    [ NElem "Label" [className "text-sm font-medium text-muted-foreground"]
        [NText (ColumnConfig.label column)];
      NElem "div" [className "min-h-6"] [formatted] ].

(** [renderFieldSection(sectionTitle, fields)]. *)
Definition renderFieldSection `{JsHost} (item : Record) (st : Store)
  (sectionTitle : string) (fields : list loc) : result Node :=
  if Nat.eqb (List.length fields) 0 then Ok NNull
  else
    rows <- mapM (fun col =>
                    let column := st col in
                    formatted <- formatValue item
                                   (get item (ColumnConfig.key column))
                                   (Some column) ;;
                    Ok (fieldNode column formatted))
                 fields ;;
    Ok (NElem "div" [className "space-y-4"]
          [ NElem "h3" [className "text-lg font-semibold text-foreground"]
              [NText sectionTitle];
            NElem "div" [className "grid gap-4"] [NArray rows] ]).

Definition Separator `{JsHost} : Node := NElem "Separator" [] [].

(** [cond && <Separator />] on a boolean condition. *)
Definition separatorIf `{JsHost} (cond : bool) : Node :=
  if cond then Separator else NBool false.

Definition nonEmpty {A : Type} (l : list A) : bool :=
  Nat.ltb 0 (List.length l).

(** The children of the body: the four sections in display order with the
    three separator slots between them. *)
Definition bodyChildren `{JsHost} (item : Record) (st : Store)
  (columns : list loc) : result (list Node) :=
  let basic := basicFields st columns in
  let media := mediaFields st columns in
  let other := otherFields st columns in
  let meta := metaFields st columns in
  s1 <- renderFieldSection item st "Basic Information" basic ;;
  s2 <- renderFieldSection item st "Media" media ;;
  s3 <- renderFieldSection item st "Additional Information" other ;;
  s4 <- renderFieldSection item st "Meta Information" meta ;;
  Ok [ s1;
       separatorIf
         (nonEmpty basic && (nonEmpty media || nonEmpty other || nonEmpty meta));
       s2;
       separatorIf (nonEmpty media && (nonEmpty other || nonEmpty meta));
       s3;
       separatorIf (nonEmpty other && nonEmpty meta);
       s4 ].

(** ** The title *)

(** [title || formatValue(item[columns[0]?.key], columns[0]) || "Details"]. *)
Definition dialogTitle `{JsHost} (item : Record) (st : Store)
  (columns : list loc) (title : option string) : result Node :=
  let fallback :=
    let column := option_map st (List.nth_error columns 0) in
    formatted <- formatValue item
                   (get item (prop_key (option_map ColumnConfig.key column)))
                   column ;;
    Ok (js_or formatted (NText "Details")) in
  match title with
  | Some t => if string_truthy t then Ok (NText t) else fallback
  | None => fallback
  end.

(** The optional description under the title. *)
Definition dialogDescription `{JsHost} (item : Record) : Node :=
  match get item "subtitle" with
  | Data (VString s) =>
      NElem "DialogDescription" [className "text-base"] [NText s]
  | Data (VNumber n) =>
      NElem "DialogDescription" [className "text-base"] [NNumber n]
  | _ => NBool false
  end.

(** ** The action bar *)

(** [!action.condition || action.condition(item)]. *)
Definition actionShown `{JsHost} (item : Record) (action : ActionConfig.t)
  : bool :=
  match ActionConfig.condition action with
  | None => true
  | Some condition => condition item
  end.

(** The click handler of an action's button:
    [() => { action.onClick(item); onClose(); }]. *)
Definition actionClick `{JsHost} (item : Record) (onClose : World -> World)
  (action : ActionConfig.t) : World -> World :=
  fun w => onClose (ActionConfig.onClick action item w).

Definition actionButton `{JsHost} (item : Record) (onClose : World -> World)
  (action : ActionConfig.t) : Node :=
  NElem "Button"
    [ ("key", PStr (ActionConfig.key action));
      ("variant",
        PStr match ActionConfig.variant action with
             | Some v => if string_truthy v then v else "outline"
             | None => "outline"
             end);
      ("size", PStr "sm");
      className "flex items-center gap-2 border border-primary/50 rounded-md";
      ("onClick", PHandler (actionClick item onClose action)) ]
    [ optNode (ActionConfig.icon action);
      NText (ActionConfig.label action) ].

(** The actions block: nothing without actions, else the bar with one
    button per action that passes the filter. *)
Definition actionBar `{JsHost} (item : Record) (onClose : World -> World)
  (actions : list ActionConfig.t) : Node :=
  if Nat.ltb 0 (List.length actions)
  then
    NElem "div" [className "flex flex-wrap gap-2 pt-4 border-t justify-end"]
      [NArray (List.map (actionButton item onClose)
                 (List.filter (actionShown item) actions))]
  else NBool false.

(** ** The component *)

Definition DynamicDetailsModal `{JsHost} (isOpen : bool)
  (onClose : World -> World) (item : Record) (st : Store)
  (columns : list loc) (title : option string)
  (actions : option (list ActionConfig.t)) (className_ : option string)
  : result Node :=
  let actions := match actions with Some a => a | None => [] end in
  titleNode <- dialogTitle item st columns title ;;
  body <- bodyChildren item st columns ;;
  Ok (NElem "Dialog" [("open", PBool isOpen); ("onOpenChange", PHandler onClose)]
        [ NElem "DialogContent"
            [ className
                (cn "mx-4 min-w-full md:min-w-3xl max-h-[90vh] overflow-y-auto scrollbar-custom"
                    className_) ]
            [ NElem "DialogHeader" [className "space-y-3"]
                [ NElem "DialogTitle" [className "text-2xl"] [titleNode];
                  dialogDescription item ];
              NElem "div" [className "space-y-6 py-4"] body;
              actionBar item onClose actions ] ]).

(** ** Observations on the tree *)

(** Whether a node produces output: [null], [undefined] and booleans render
    nothing. *)
Definition rendered `{JsHost} (n : Node) : bool :=
  match n with
  | NNull | NUndefined | NBool _ => false
  | _ => true
  end.

Definition isSeparator `{JsHost} (n : Node) : bool :=
  match n with
  | NElem tag _ _ => String.eqb tag "Separator"
  | _ => false
  end.

(** [sep] placed between each two consecutive elements. *)
Fixpoint intersperse {A : Type} (sep : A) (l : list A) : list A :=
  match l with
  | [] => []
  | [x] => [x]
  | x :: l' => x :: sep :: intersperse sep l'
  end.

(** The text a node displays: text and number children, concatenated. *)
Fixpoint textContent `{JsHost} (n : Node) : string :=
  match n with
  | NNull | NUndefined | NBool _ => ""
  | NNumber x => Number_toString x
  | NText s => s
  | NArray items =>
      (fix go (l : list Node) : string :=
         match l with
         | [] => ""
         | x :: l' => textContent x ++ go l'
         end) items
  | NElem _ _ children =>
      (fix go (l : list Node) : string :=
         match l with
         | [] => ""
         | x :: l' => textContent x ++ go l'
         end) children
  end.

(** The click handlers of the buttons of an action bar, in order. *)
Definition buttonHandler `{JsHost} (n : Node) : option (World -> World) :=
  match n with
  | NElem _ props _ =>
      match List.find (fun p => String.eqb (fst p) "onClick") props with
      | Some (_, PHandler h) => Some h
      | _ => None
      end
  | _ => None
  end.

(** The buttons of the actions block. *)
Definition barButtons `{JsHost} (bar : Node) : list Node :=
  match bar with
  | NElem _ _ [NArray buttons] => buttons
  | _ => []
  end.

(** A column with another [render]. *)
Definition with_render `{JsHost} (column : ColumnConfig.t)
  (r : Value -> Record -> Node) : ColumnConfig.t :=
  ColumnConfig.mk (ColumnConfig.key column) (ColumnConfig.label column)
    (ColumnConfig.type column) (ColumnConfig.options column) (Some r).

(** Every character of the string is white space. *)
Fixpoint all_space (s : string) : bool :=
  match s with
  | EmptyString => true
  | String c s' => is_space c && all_space s'
  end.

(** No mapping in the value, at any depth, has an own [toString]. *)
Fixpoint printable `{JsHost} (v : jsval) : bool :=
  match v with
  | VArray elems =>
      (fix all (l : list jsval) : bool :=
         match l with
         | [] => true
         | e :: l' => printable e && all l'
         end) elems
  | VObject fields =>
      match own fields "toString" with
      | Some _ => false
      | None =>
          (fix all (l : list (string * jsval)) : bool :=
             match l with
             | [] => true
             | e :: l' => printable (snd e) && all l'
             end) fields
      end
  | _ => true
  end.

(** Induction on values through the arrays and mappings they hold. *)
Section ValueInduction.
Context `{JsHost}.
Variable P : jsval -> Prop.
Hypothesis P_null : P VNull.
Hypothesis P_undefined : P VUndefined.
Hypothesis P_bool : forall b, P (VBool b).
Hypothesis P_number : forall n, P (VNumber n).
Hypothesis P_string : forall s, P (VString s).
Hypothesis P_array : forall elems, List.Forall P elems -> P (VArray elems).
Hypothesis P_object :
  forall fields,
    List.Forall (fun e => P (snd e)) fields -> P (VObject fields).

Fixpoint jsval_nested_ind (v : jsval) : P v :=
  match v with
  | VNull => P_null
  | VUndefined => P_undefined
  | VBool b => P_bool b
  | VNumber n => P_number n
  | VString s => P_string s
  | VArray elems =>
      P_array
        ((fix all (l : list jsval) : List.Forall P l :=
            match l with
            | [] => List.Forall_nil P
            | e :: l' => List.Forall_cons e (jsval_nested_ind e) (all l')
            end) elems)
  | VObject fields =>
      P_object
        ((fix all (l : list (string * jsval))
            : List.Forall (fun e => P (snd e)) l :=
            match l with
            | [] => List.Forall_nil _
            | e :: l' =>
                List.Forall_cons e (jsval_nested_ind (snd e)) (all l')
            end) fields)
  end.

End ValueInduction.

(** No character of the string is a line feed. *)
Fixpoint no_newline (s : string) : bool :=
  match s with
  | EmptyString => true
  | String c s' => negb (Ascii.eqb c newline) && no_newline s'
  end.

(** ** Further observations on the tree *)

Definition isInnerHTML `{JsHost} (p : string * PropVal) : bool :=
  match snd p with
  | PInnerHTML _ => true
  | _ => false
  end.

(** Whether some element of the tree sets markup through
    [dangerouslySetInnerHTML]. *)
Fixpoint hasInnerHTML `{JsHost} (n : Node) : bool :=
  match n with
  | NArray items =>
      (fix go (l : list Node) : bool :=
         match l with
         | [] => false
         | x :: l' => hasInnerHTML x || go l'
         end) items
  | NElem _ props children =>
      List.existsb isInnerHTML props
      || (fix go (l : list Node) : bool :=
            match l with
            | [] => false
            | x :: l' => hasInnerHTML x || go l'
            end) children
  | _ => false
  end.

(** The attribute [name] of an element's attribute list. *)
Definition propOf `{JsHost} (name : string) (props : list (string * PropVal))
  : option PropVal :=
  option_map snd (List.find (fun p => String.eqb (fst p) name) props).

(** The attribute lists of the [Image] elements of a tree, in document
    order. *)
Fixpoint images `{JsHost} (n : Node) : list (list (string * PropVal)) :=
  match n with
  | NArray items =>
      (fix go (l : list Node) : list (list (string * PropVal)) :=
         match l with
         | [] => []
         | x :: l' => (images x ++ go l')%list
         end) items
  | NElem tag props children =>
      ((if String.eqb tag "Image" then [props] else [])
         ++ (fix go (l : list Node) : list (list (string * PropVal)) :=
               match l with
               | [] => []
               | x :: l' => (images x ++ go l')%list
               end) children)%list
  | _ => []
  end.

(** The rows of a section returned by [renderFieldSection]. *)
Definition sectionRows `{JsHost} (section : Node) : list Node :=
  match section with
  | NElem _ _ [_; NElem _ _ [NArray rows]] => rows
  | _ => []
  end.

(** ** The toasts of [sonner] *)

Module Sonner.
Inductive Kind : Type :=
| success
| error
| info.

(** A call [toast.kind(message, {description, duration})]. *)
Record Toast : Type := mk {
  kind : Kind;
  message : string;
  description : option string;
  duration : option nat
}.
End Sonner.

(** ** The sign-up form *)

Module SignUpForm.

(** What a key or paste handler leaves behind: whether [preventDefault] was
    called on the event, and the toasts shown so far. *)
Record Handled : Type := mkHandled {
  defaultPrevented : bool;
  toasts : list Sonner.Toast
}.

Definition preventDefault (h : Handled) : Handled :=
  mkHandled true (toasts h).

Definition toast_error (message : string) (h : Handled) : Handled :=
  mkHandled (defaultPrevented h)
    (toasts h ++ [Sonner.mk Sonner.error message None None])%list.

(** [handleEmailKeyPress(e)], [key] being [e.key]. *)
Definition handleEmailKeyPress (key : string) (h : Handled) : Handled :=
  if String.eqb key " "
  then toast_error "Spaces are not allowed in email addresses"
         (preventDefault h)
  else h.

(** [handleEmailPaste(e)], [pastedText] being
    [e.clipboardData.getData("text")]. *)
Definition handleEmailPaste (pastedText : string) (h : Handled) : Handled :=
  if includes_str pastedText " "
  then toast_error "Spaces are not allowed in email addresses"
         (preventDefault h)
  else h.

Definition handlePasswordKeyPress (key : string) (h : Handled) : Handled :=
  if String.eqb key " "
  then toast_error "Spaces are not allowed in passwords" (preventDefault h)
  else h.

Definition handlePasswordPaste (pastedText : string) (h : Handled) : Handled :=
  if includes_str pastedText " "
  then toast_error "Spaces are not allowed in passwords" (preventDefault h)
  else h.

Record PasswordStrengthResult : Type := mkStrength {
  strength : nat;
  label : string;
  color : string
}.

Definition between (lo hi : nat) (c : ascii) : bool :=
  Nat.leb lo (nat_of_ascii c) && Nat.leb (nat_of_ascii c) hi.

(** [[a-z]]. *)
Definition lower (c : ascii) : bool := between 97 122 c.

(** [[A-Z]]. *)
Definition upper (c : ascii) : bool := between 65 90 c.

(** [\d]. *)
Definition digit (c : ascii) : bool := between 48 57 c.

(** [[^a-zA-Z\d]]. *)
Definition special (c : ascii) : bool :=
  negb (lower c || upper c || digit c).

(** [/[class]/.test(s)]: some character of [s] is in the class. *)
Fixpoint test (class : ascii -> bool) (s : string) : bool :=
  match s with
  | EmptyString => false
  | String c s' => class c || test class s'
  end.

Definition labels : list string :=
  ["Very Weak"; "Weak"; "Fair"; "Good"; "Strong"].

Definition colors : list string :=
  ["bg-red-500"; "bg-orange-500"; "bg-yellow-500"; "bg-blue-500";
   "bg-green-500"].

(** [xs[n - 1] || ""]: index [-1] of an array is [undefined]. *)
Definition at_pred (xs : list string) (n : nat) : string :=
  match n with
  | 0 => ""
  | S i =>
      match List.nth_error xs i with
      | Some x => if string_truthy x then x else ""
      | None => ""
      end
  end.

Definition incr_if (cond : bool) (strength : nat) : nat :=
  if cond then strength + 1 else strength.

(** [getPasswordStrength(password)]. *)
Definition getPasswordStrength (password : string) : PasswordStrengthResult :=
  if negb (string_truthy password) then mkStrength 0 "" ""
  else
    let strength := 0 in
    let strength := incr_if (Nat.leb 8 (String.length password)) strength in
    let strength := incr_if (test lower password) strength in
    let strength := incr_if (test upper password) strength in
    let strength := incr_if (test digit password) strength in
    let strength := incr_if (test special password) strength in
    mkStrength strength (at_pred labels strength) (at_pred colors strength).

(** The number of rules a password meets. *)
Definition rulesMet (password : string) : nat :=
  Nat.b2n (Nat.leb 8 (String.length password))
  + Nat.b2n (test lower password)
  + Nat.b2n (test upper password)
  + Nat.b2n (test digit password)
  + Nat.b2n (test special password).

Definition barBase : string := "h-1 flex-1 rounded-full ".

Definition grayBar : string := "bg-gray-200 dark:bg-gray-600".

(** One bar of the strength meter. *)
Definition strengthBar `{JsHost} (passwordStrength : PasswordStrengthResult)
  (level : nat) : Node :=
  NElem "div"
    [ ("key", PNat level);
      className
        (barBase ++ (if Nat.leb level (strength passwordStrength)
                     then color passwordStrength
                     else grayBar)) ]
    [].

(** The class of the caption under the meter. *)
Definition captionClass (passwordStrength : PasswordStrengthResult) : string :=
  "text-xs "
  ++ (if Nat.leb 4 (strength passwordStrength)
      then "text-green-600 dark:text-green-400"
      else if Nat.leb 3 (strength passwordStrength)
      then "text-blue-600 dark:text-blue-400"
      else if Nat.leb 2 (strength passwordStrength)
      then "text-yellow-600 dark:text-yellow-400"
      else "text-red-600 dark:text-red-400").

(** The password strength indicator: [password && (...)]. *)
Definition strengthIndicator `{JsHost} (password : string) : Node :=
  let passwordStrength := getPasswordStrength password in
  js_and (NText password)
    (NElem "div" [className "space-y-1"]
       [ NElem "div" [className "flex space-x-1"]
           [NArray (List.map (strengthBar passwordStrength) [1; 2; 3; 4; 5])];
         js_and (NText (label passwordStrength))
           (NElem "p" [className (captionClass passwordStrength)]
              [NText "Password strength: ";
               NText (label passwordStrength)]) ]).

End SignUpForm.

(** ** The forgotten-password form *)

(** What [onSubmit] takes from the browser: the clock when a timer of a
    given delay fires, whether [localStorage] takes a write (it raises
    otherwise), and [toISOString]. *)
Class Browser : Type := {
  wake : nat -> nat -> nat;
  accepts : (string -> option string) -> string -> string -> bool;
  toISOString : nat -> string
}.

Module ForgetPassword.

(** A line of the console: the stream, the label and the logged fields. *)
Record LogLine : Type := mkLog {
  isError : bool;
  text : string;
  fields : list (string * string)
}.

(** The state [onSubmit] acts on: the component's [isLoading], the clock,
    the console, the toasts, [localStorage], and the pending timers, each
    with its delay and the route its callback pushes. *)
Record World : Type := mkWorld {
  isLoading : bool;
  clock : nat;
  console : list LogLine;
  toasts : list Sonner.Toast;
  localStorage : string -> option string;
  timers : list (nat * string)
}.

Definition setIsLoading (b : bool) (w : World) : World :=
  mkWorld b (clock w) (console w) (toasts w) (localStorage w) (timers w).

(** [await new Promise((resolve) => setTimeout(resolve, ms))]. *)
Definition sleep `{Browser} (ms : nat) (w : World) : World :=
  mkWorld (isLoading w) (wake ms (clock w)) (console w) (toasts w)
    (localStorage w) (timers w).

Definition console_write (line : LogLine) (w : World) : World :=
  mkWorld (isLoading w) (clock w) (console w ++ [line])%list (toasts w)
    (localStorage w) (timers w).

Definition toast (t : Sonner.Toast) (w : World) : World :=
  mkWorld (isLoading w) (clock w) (console w) (toasts w ++ [t])%list
    (localStorage w) (timers w).

(** [localStorage.getItem(key)]. *)
Definition getItem (key : string) (w : World) : option string :=
  localStorage w key.

(** [localStorage.setItem(key, value)]: [None] when the write raises. *)
Definition setItem `{Browser} (key value : string) (w : World) : option World :=
  if accepts (localStorage w) key value
  then
    Some (mkWorld (isLoading w) (clock w) (console w) (toasts w)
            (fun k => if String.eqb k key then Some value else localStorage w k)
            (timers w))
  else None.

(** [setTimeout(() => { router.push(route); }, ms)]. *)
Definition setTimeout (ms : nat) (route : string) (w : World) : World :=
  mkWorld (isLoading w) (clock w) (console w) (toasts w) (localStorage w)
    (timers w ++ [(ms, route)])%list.

Definition successToast (email : string) : Sonner.Toast :=
  Sonner.mk Sonner.success "OTP sent successfully!"
    (Some ("Verification code sent to " ++ email)) (Some 2000).

Definition failureToast : Sonner.Toast :=
  Sonner.mk Sonner.error "Failed to send OTP"
    (Some "Please check your email and try again.") (Some 3000).

(** The [catch] block. *)
Definition onError (w : World) : World :=
  toast failureToast
    (console_write (mkLog true "Forget password error:" []) w).

(** The [try] block with its [catch]: a write that raises hands the world
    it was attempted in to the [catch] block. The clock is read where the
    source reads it, and moves only while the submission sleeps. *)
Definition attempt `{Browser} (email : string) (w : World) : World :=
  let w := sleep 1500 w in
  let w := console_write
             (mkLog false "Forget Password Form Data:"
                [("email", email); ("timestamp", toISOString (clock w))])
             w in
  let w := toast (successToast email) w in
  match setItem "resetEmail" email w with
  | None => onError w
  | Some w =>
      match setItem "otpSentTime" (nat_String (clock w)) w with
      | None => onError w
      | Some w => setTimeout 1000 "/verify-otp" w
      end
  end.

(** [onSubmit(data)], [email] being [data.email]. *)
Definition onSubmit `{Browser} (email : string) (w : World) : World :=
  let w := setIsLoading true w in
  let w := attempt email w in
  setIsLoading false w.

(** The clock when the simulated request returns. *)
Definition woken `{Browser} (w : World) : nat := wake 1500 (clock w).

(** [localStorage] after the first write. *)
Definition stored (email : string) (w : World) : string -> option string :=
  fun k => if String.eqb k "resetEmail" then Some email else localStorage w k.

End ForgetPassword.

(** ** A small host, for running the component on examples

    Numbers are natural numbers, the only date that parses is the epoch,
    and the world is the log of the callbacks that ran. *)
#[local] Instance exampleHost : JsHost := {
  number := nat;
  number_truthy := fun n => negb (Nat.eqb n 0);
  Number_toString := nat_String;
  number_of_nat := fun n => n;
  Number_toString_of_nat := fun n => eq_refl;
  Number_toLocaleString := nat_String;
  Function_toString := fun name => "function " ++ name ++ "() { [native code] }";
  Date_parse := fun s => if String.eqb s "1970-01-01" then Some 0 else None;
  Date_format := fun _ => "1/1/1970";
  cn := fun base extra =>
          match extra with
          | Some e => (base ++ " " ++ e)%string
          | None => base
          end;
  World := list string
}.

Module Examples.

Definition column (key label : string) (type : ColumnType.t)
  : ColumnConfig.t :=
  ColumnConfig.mk key label type None None.

(** A store with a cover image keyed [title], a name, a status and a
    description; every other address holds a notes column. *)
Definition store : Store :=
  fun l =>
    match l with
    | 0 => column "title" "Cover" ColumnType.image
    | 1 => column "name" "Name" ColumnType.untyped
    | 2 => column "status" "Status" ColumnType.untyped
    | 3 => column "description" "Description" ColumnType.textarea
    | _ => column "notes" "Notes" ColumnType.untyped
    end.

(** A store of contact columns: an email at address 5, notes elsewhere. *)
Definition contacts : Store :=
  fun l =>
    match l with
    | 5 => column "email" "Email" ColumnType.untyped
    | _ => column "notes" "Notes" ColumnType.untyped
    end.

Definition statusOptions : list SelectOption.t :=
  [ SelectOption.mk "draft" "Draft" None None;
    SelectOption.mk "active" "Active" (Some "#00ff00") (Some (NText "*")) ].

Definition statusColumn : ColumnConfig.t :=
  ColumnConfig.mk "status" "Status" ColumnType.select (Some statusOptions) None.

Definition item : Record :=
  [ ("name", VString "Widget"); ("status", VString "active") ].

Definition onClose : World -> World := fun w => (w ++ ["close"])%list.

Definition archive : ActionConfig.t :=
  ActionConfig.mk "archive" "Archive" None None
    (fun _ w => (w ++ ["archive"])%list)
    (Some (fun r => match get r "status" with
                    | Data (VString s) => String.eqb s "active"
                    | _ => false
                    end)).

Definition restore : ActionConfig.t :=
  ActionConfig.mk "restore" "Restore" None None
    (fun _ w => (w ++ ["restore"])%list)
    (Some (fun r => match get r "status" with
                    | Data (VString s) => String.eqb s "archived"
                    | _ => false
                    end)).

Definition dateColumn : ColumnConfig.t :=
  column "createdAt" "Created" ColumnType.date.

Definition photoColumn : ColumnConfig.t :=
  column "photos" "Photos" ColumnType.image.

Definition notesColumn : ColumnConfig.t :=
  column "description" "Description" ColumnType.textarea.

Definition urlColumn : ColumnConfig.t :=
  column "homepage" "Homepage" ColumnType.url.

(** A mapping with an own [toString] that is a string. *)
Definition stubborn : jsval := VObject [("toString", VString "x")].

Definition tagsColumn : ColumnConfig.t :=
  column "tags" "Tags" ColumnType.untyped.

Definition linksColumn : ColumnConfig.t := column "links" "Links" ColumnType.untyped.

Definition links : list (string * jsval) :=
  [ ("site", VString "https://x.org"); ("fax", VString "");
    ("handle", VString "@w"); ("verified", VBool false) ].

Definition constantRender : Value -> Record -> Node :=
  fun _ _ => NText "shown".

Definition guardedRender : Value -> Record -> Node :=
  fun v _ => if is_nullish v then NText "never" else NText "shown".

Definition markup : string := "<b>a</b>" ++ String newline "b".

End Examples.

(** The source of an [Image] element and whether it bypasses the
    optimizer, read off its attributes. *)
Definition imageSource `{JsHost} (props : list (string * PropVal))
  : option (string * bool) :=
  match propOf "src" props, propOf "unoptimized" props with
  | Some (PStr src), Some (PBool flag) => Some (src, flag)
  | _, _ => None
  end.

(** The class of an element. *)
Definition classOf `{JsHost} (n : Node) : option string :=
  match n with
  | NElem _ props _ =>
      match propOf "className" props with
      | Some (PStr c) => Some c
      | _ => None
      end
  | _ => None
  end.

(** Whether a bar of the strength meter carries the given color. *)
Definition isColoredBar `{JsHost} (color : string) (bar : Node) : bool :=
  match classOf bar with
  | Some c => String.eqb c (SignUpForm.barBase ++ color)
  | None => false
  end.

(** The characters of a string. *)
Fixpoint chars (s : string) : list ascii :=
  match s with
  | EmptyString => []
  | String c s' => c :: chars s'
  end.

Definition space : ascii := ascii_of_nat 32.

(** ** Browsers and worlds for the examples *)

Module FormExamples.

(** A timer fires on time and every write is taken. *)
Definition roomy : Browser := {|
  wake := fun ms t => t + ms;
  accepts := fun _ _ _ => true;
  toISOString := nat_String
|}.

(** A browser whose storage is full. *)
Definition full : Browser := {|
  wake := fun ms t => t + ms;
  accepts := fun _ _ _ => false;
  toISOString := nat_String
|}.

Definition idle : ForgetPassword.World :=
  ForgetPassword.mkWorld false 0 [] [] (fun _ => None) [].

Definition untouched : SignUpForm.Handled := SignUpForm.mkHandled false [].

End FormExamples.

(** * Properties *)

(** ** Strings *)

Lemma append_empty_r (s : string) : s ++ "" = s.
Proof.
  induction s as [|c s IH]; simpl; [reflexivity | now rewrite IH].
Qed.

Lemma trimStart_all_space (s : string) :
  all_space s = true -> trimStart s = "".
Proof.
  induction s as [|c s IH]; simpl; [reflexivity|].
  intros Hs. apply andb_true_iff in Hs as [Hc Hs].
  rewrite Hc. now apply IH.
Qed.

Lemma all_space_trimStart (s : string) :
  all_space (trimStart s) = true -> all_space s = true.
Proof.
  induction s as [|c s IH]; simpl; [reflexivity|].
  destruct (is_space c) eqn:Hc; simpl.
  - exact IH.
  - rewrite Hc. discriminate.
Qed.

Lemma trimEnd_empty (s : string) :
  trimEnd s = "" -> all_space s = true.
Proof.
  induction s as [|c s IH]; simpl; [reflexivity|].
  destruct (trimEnd s) eqn:Ht.
  - destruct (is_space c); [intros _; now rewrite IH | discriminate].
  - discriminate.
Qed.

(** [trim] leaves nothing exactly of the strings made of white space. *)
Lemma trim_empty_iff (s : string) :
  trim s = "" <-> all_space s = true.
Proof.
  unfold trim. split.
  - intros Ht. apply all_space_trimStart. now apply trimEnd_empty.
  - intros Hs. now rewrite (trimStart_all_space s Hs).
Qed.

Lemma string_truthy_false (s : string) :
  string_truthy s = false <-> s = "".
Proof.
  destruct s; simpl; split; congruence.
Qed.

Lemma trim_truthy_iff (s : string) :
  string_truthy (trim s) = true <-> all_space s = false.
Proof.
  destruct (all_space s) eqn:Hs.
  - apply trim_empty_iff in Hs. rewrite Hs. simpl. split; discriminate.
  - split; [reflexivity | intros _].
    destruct (string_truthy (trim s)) eqn:Ht; [reflexivity|].
    apply string_truthy_false, trim_empty_iff in Ht. congruence.
Qed.

(** Without a line feed, [replace] changes nothing: every other character,
    markup included, is kept as it is. *)
Lemma replace_newlines_verbatim (s : string) :
  no_newline s = true -> replace_newlines s = s.
Proof.
  induction s as [|c s IH]; simpl; [reflexivity|].
  intros Hs. apply andb_true_iff in Hs as [Hc Hs].
  apply negb_true_iff in Hc. rewrite Hc. now rewrite IH.
Qed.

Lemma replace_newlines_app (s t : string) :
  replace_newlines (s ++ t) = replace_newlines s ++ replace_newlines t.
Proof.
  induction s as [|c s IH]; simpl; [reflexivity|].
  destruct (Ascii.eqb c newline); simpl; now rewrite IH.
Qed.

(** ** Lists *)

Lemma mapi_from_length {A B : Type} (f : A -> nat -> B) (l : list A) :
  forall i, List.length (mapi_from i f l) = List.length l.
Proof.
  induction l as [|a l IH]; intros i; simpl; [reflexivity | now rewrite IH].
Qed.

Lemma mapi_length {A B : Type} (f : A -> nat -> B) (l : list A) :
  List.length (mapi f l) = List.length l.
Proof. apply mapi_from_length. Qed.

Lemma mapM_ok {A B : Type} (f : A -> result B) (l : list A) :
  (forall a, exists b, f a = Ok b) ->
  exists bs, mapM f l = Ok bs /\ List.length bs = List.length l.
Proof.
  intros Hf. induction l as [|a l [bs [IH Hlen]]]; simpl.
  - now exists [].
  - destruct (Hf a) as [b Hb]. rewrite Hb, IH. simpl.
    exists (b :: bs). simpl. now rewrite Hlen.
Qed.

Lemma find_first {A : Type} (p : A -> bool) (pre post : list A) (x : A) :
  (forall y, In y pre -> p y = false) -> p x = true ->
  List.find p (pre ++ x :: post)%list = Some x.
Proof.
  intros Hpre Hx. induction pre as [|y pre IH]; simpl.
  - now rewrite Hx.
  - rewrite (Hpre y (or_introl eq_refl)). apply IH.
    intros z Hz. apply Hpre. now right.
Qed.

Lemma find_none_iff {A : Type} (p : A -> bool) (l : list A) :
  List.find p l = None <-> forall y, In y l -> p y = false.
Proof.
  split.
  - apply List.find_none.
  - induction l as [|y l IH]; simpl; [reflexivity|].
    intros Hl. rewrite (Hl y (or_introl eq_refl)). apply IH.
    intros z Hz. apply Hl. now right.
Qed.

(** ** Traversals that can raise *)

Lemma mapM_Forall2 {A B : Type} (f : A -> result B) (l : list A) :
  forall bs, mapM f l = Ok bs -> List.Forall2 (fun a b => f a = Ok b) l bs.
Proof.
  induction l as [|a l IH]; simpl; intros bs Hbs.
  - injection Hbs as <-. constructor.
  - destruct (f a) as [b|e] eqn:Hb; simpl in Hbs; [|discriminate].
    destruct (mapM f l) as [bs'|e] eqn:Hl; simpl in Hbs; [|discriminate].
    injection Hbs as <-. constructor; [assumption | now apply IH].
Qed.

Lemma Forall2_mapM {A B : Type} (f : A -> result B) (l : list A)
  (bs : list B) :
  List.Forall2 (fun a b => f a = Ok b) l bs -> mapM f l = Ok bs.
Proof.
  induction 1 as [|a b l bs Hab _ IH]; simpl; [reflexivity|].
  now rewrite Hab, IH.
Qed.

Lemma mapM_throw {A B : Type} (f : A -> result B) (l : list A) (e : exn) :
  mapM f l = Throw e -> exists a, In a l /\ f a = Throw e.
Proof.
  induction l as [|a l IH]; simpl; [discriminate|].
  destruct (f a) as [b|e'] eqn:Hb; simpl.
  - destruct (mapM f l) as [bs|e'] eqn:Hl; simpl; [discriminate|].
    intros [= ->]. destruct (IH eq_refl) as [a' [Hin Ha']].
    exists a'. split; [now right | assumption].
  - intros [= ->]. exists a. split; [now left | assumption].
Qed.

Lemma mapM_In_throw {A B : Type} (f : A -> result B) (l : list A) (a : A)
  (e : exn) :
  In a l -> f a = Throw e -> exists e', mapM f l = Throw e'.
Proof.
  induction l as [|x l IH]; intros Hin Ha; [contradiction|]. simpl.
  destruct (f x) as [b|e'] eqn:Hx; simpl; [|eauto].
  destruct Hin as [-> | Hin]; [congruence|].
  destruct (IH Hin Ha) as [e' ->]. simpl. eauto.
Qed.

Lemma mapM_ok_in {A B : Type} (f : A -> result B) (l : list A) :
  (forall a, In a l -> exists b, f a = Ok b) ->
  exists bs, mapM f l = Ok bs /\ List.length bs = List.length l.
Proof.
  induction l as [|a l IH]; intros Hf; simpl.
  - now exists [].
  - destruct (Hf a (or_introl eq_refl)) as [b Hb].
    destruct IH as [bs [Hbs Hlen]]; [intros x Hx; apply Hf; now right|].
    rewrite Hb, Hbs. simpl. exists (b :: bs). simpl. now rewrite Hlen.
Qed.

Lemma mapiM_from_Forall2 {A B C : Type} (f : A -> nat -> result B)
  (g : C -> nat -> B) (R : A -> C -> Prop) (l : list A) (l' : list C) :
  (forall a c i, R a c -> f a i = Ok (g c i)) ->
  List.Forall2 R l l' ->
  forall i, mapiM_from i f l = Ok (mapi_from i g l').
Proof.
  intros Hf. induction 1 as [|a c l l' Hac _ IH]; intros i; simpl;
    [reflexivity|].
  now rewrite (Hf a c i Hac), IH.
Qed.

Lemma mapiM_from_Ok {A B : Type} (f : A -> nat -> result B) (l : list A) :
  forall i bs,
    mapiM_from i f l = Ok bs ->
    List.Forall (fun b => exists a j, f a j = Ok b) bs.
Proof.
  induction l as [|a l IH]; simpl; intros i bs Hbs.
  - injection Hbs as <-. constructor.
  - destruct (f a i) as [b|e] eqn:Hb; simpl in Hbs; [|discriminate].
    destruct (mapiM_from (S i) f l) as [bs'|e] eqn:Hl; simpl in Hbs;
      [|discriminate].
    injection Hbs as <-. constructor; [eauto | eapply IH; eassumption].
Qed.

Lemma mapiM_from_throw {A B : Type} (f : A -> nat -> result B) (l : list A)
  (e : exn) :
  forall i, mapiM_from i f l = Throw e ->
            exists a j, In a l /\ f a j = Throw e.
Proof.
  induction l as [|a l IH]; simpl; intros i; [discriminate|].
  destruct (f a i) as [b|e'] eqn:Hb; simpl.
  - destruct (mapiM_from (S i) f l) as [bs|e'] eqn:Hl; simpl; [discriminate|].
    intros [= ->]. destruct (IH _ Hl) as (a' & j & Hin & Ha').
    exists a', j. split; [now right | assumption].
  - intros [= ->]. exists a, i. split; [now left | assumption].
Qed.

Lemma findM_pure {A : Type} (p : A -> result bool) (q : A -> bool)
  (l : list A) :
  (forall x, p x = Ok (q x)) -> findM p l = Ok (List.find q l).
Proof.
  intros Hp. induction l as [|x l IH]; simpl; [reflexivity|].
  rewrite Hp. simpl. destruct (q x); [reflexivity | exact IH].
Qed.

(** The position of an element is the index its image is built with. *)
Lemma nth_error_mapi_from {A B : Type} (f : A -> nat -> B) (l : list A) :
  forall i k,
    List.nth_error (mapi_from i f l) k
    = option_map (fun a => f a (i + k)) (List.nth_error l k).
Proof.
  induction l as [|a l IH]; intros i k.
  - now destruct k.
  - destruct k as [|k]; simpl.
    + now rewrite Nat.add_0_r.
    + rewrite IH. now rewrite Nat.add_succ_r.
Qed.

(** ** Stringification *)

Section Strings.
Context `{JsHost}.

Lemma ToString_array (elems : list jsval) :
  ToString (VArray elems)
  = (strings <- mapM elementString elems ;; Ok (join "," strings)).
Proof.
  simpl. f_equal. induction elems as [|e l IH]; [reflexivity|].
  simpl. unfold elementString at 1. now rewrite IH.
Qed.

(** The only exception of a conversion to string. *)
Lemma ToString_throw (v : jsval) :
  forall e, ToString v = Throw e -> e = cannotConvert.
Proof.
  induction v as [| |b|n|s|elems IH|fields IH] using jsval_nested_ind;
    intros e; try (simpl; discriminate).
  - destruct b; discriminate.
  - rewrite ToString_array.
    destruct (mapM elementString elems) as [ss|e'] eqn:Hm; simpl;
      [discriminate|].
    intros [= <-]. apply mapM_throw in Hm as (x & Hin & Hx).
    rewrite List.Forall_forall in IH.
    destruct x; try discriminate; now apply (IH _ Hin).
  - simpl. destruct (own fields "toString"); [|discriminate].
    now intros [= <-].
Qed.

Lemma String_throw (v : Value) :
  forall e, String_ v = Throw e -> e = cannotConvert.
Proof.
  destruct v; simpl; try discriminate. apply ToString_throw.
Qed.

Lemma printable_array (elems : list jsval) :
  printable (VArray elems) = List.forallb printable elems.
Proof. reflexivity. Qed.

(** A value without an own [toString] anywhere has a string. *)
Lemma printable_ToString (v : jsval) :
  printable v = true -> exists s, ToString v = Ok s.
Proof.
  induction v as [| |b|n|s|elems IH|fields IH] using jsval_nested_ind;
    intros Hp; try (simpl; eauto; fail).
  - destruct b; simpl; eauto.
  - rewrite ToString_array. rewrite printable_array in Hp.
    rewrite List.forallb_forall in Hp. rewrite List.Forall_forall in IH.
    destruct (mapM_ok_in elementString elems) as [ss [Hss _]].
    + intros x Hin. specialize (IH x Hin (Hp x Hin)).
      destruct x; simpl; eauto.
    + rewrite Hss. simpl. eauto.
  - simpl in *. destruct (own fields "toString"); [discriminate | eauto].
Qed.

Lemma String_of_string (s : string) : String_ (VString s) = Ok s.
Proof. reflexivity. Qed.

End Strings.

(** ** The value formatter *)

Section Formatter.
Context `{JsHost}.
Variable item : Record.

(** The formatter can fail: a present value formatted against a missing
    column reads a property of [undefined]. *)
Lemma formatValue_undefined_column (s : string) :
  exists e, formatValue item (VString s) None = Throw e.
Proof. unfold formatValue. simpl. eauto. Qed.

(** The test of [find] in the [select] case, once the value has a string. *)
Lemma find_by_string (value : Value) (s : string)
  (opts : list SelectOption.t) :
  String_ value = Ok s ->
  findM (fun opt => s' <- String_ value ;;
                    Ok (String.eqb (SelectOption.value opt) s')) opts
  = Ok (List.find (fun opt => String.eqb (SelectOption.value opt) s) opts).
Proof.
  intros Hs. apply findM_pure. intros opt. now rewrite Hs.
Qed.

Lemma selectNode_string (value : Value) (s : string)
  (column : ColumnConfig.t) :
  String_ value = Ok s ->
  selectNode value column
  = Ok match ColumnConfig.options column with
       | Some opts =>
           match List.find
                   (fun opt => String.eqb (SelectOption.value opt) s) opts with
           | Some option => optionBadge option
           | None => outlineBadge s
           end
       | None => outlineBadge s
       end.
Proof.
  intros Hs. unfold selectNode.
  destruct (ColumnConfig.options column) as [opts|]; [|now rewrite Hs].
  rewrite (@find_by_string value s opts Hs). simpl.
  destruct (List.find _ opts); [reflexivity | now rewrite Hs].
Qed.

Lemma selectNode_throw (value : Value) (e : exn) (column : ColumnConfig.t) :
  String_ value = Throw e -> selectNode value column = Throw e.
Proof.
  intros Hs. unfold selectNode.
  destruct (ColumnConfig.options column) as [[|opt opts]|]; simpl;
    now rewrite Hs.
Qed.

(** The thumbnails of an array whose elements have strings. *)
Lemma thumbnails_of_strings (elems : list jsval) (srcs : list string) :
  List.Forall2 (fun (e : jsval) src => String_ e = Ok src) elems srcs ->
  forall i,
    mapiM_from i thumbnail elems
    = Ok (mapi_from i
            (fun src index =>
               NElem "div"
                 [("key", PNat index); className "relative aspect-square"]
                 [ NElem "Image"
                     [ ("src", PStr src);
                       ("alt", PStr ("Image " ++ nat_String (index + 1)));
                       ("width", PNat 150);
                       ("height", PNat 150);
                       className
                         "rounded-lg border object-cover w-full h-full";
                       ("unoptimized", PBool (unoptimized src)) ]
                     [] ])
            srcs).
Proof.
  apply mapiM_from_Forall2. intros e src i Hsrc.
  unfold thumbnail. now rewrite Hsrc.
Qed.

Lemma strings_have_strings (srcs : list string) :
  List.Forall2 (fun (e : jsval) src => String_ e = Ok src)
    (List.map VString srcs) srcs.
Proof.
  induction srcs as [|s l IH]; simpl; constructor; [reflexivity | exact IH].
Qed.

(** The built-in cases return elements. *)
Lemma formatValue_builtin_element (value : Value) (column : ColumnConfig.t)
  (node : Node) :
  ColumnConfig.render column = None ->
  formatValue item value (Some column) = Ok node ->
  exists tag props children, node = NElem tag props children.
Proof.
  unfold formatValue. intros Hr.
  destruct (is_nullish value); simpl.
  { intros [= <-]. (do 3 eexists; reflexivity). }
  rewrite Hr.
  destruct (ColumnConfig.type column).
  - destruct (String_ value); simpl; intros [= <-]; (do 3 eexists; reflexivity).
  - destruct (String_ value); simpl; intros [= <-]; (do 3 eexists; reflexivity).
  - destruct (String_ value) as [s|e] eqn:Hs.
    + rewrite (@selectNode_string value s column Hs). intros [= <-].
      destruct (ColumnConfig.options column) as [opts|]; [|(do 3 eexists; reflexivity)].
      destruct (List.find _ opts); (do 3 eexists; reflexivity).
    + rewrite (@selectNode_throw value _ column Hs). discriminate.
  - unfold imageNode. destruct value as [[| | | |s|elems|]| |];
      try (intros [= <-]; (do 3 eexists; reflexivity)).
    + intros [= <-]. destruct (string_truthy (trim s)); (do 3 eexists; reflexivity).
    + destruct (Nat.ltb 0 (List.length elems));
        [|intros [= <-]; (do 3 eexists; reflexivity)].
      unfold imageGrid. destruct (mapiM thumbnail elems); simpl;
        intros [= <-]; (do 3 eexists; reflexivity).
  - destruct (String_ value); simpl; intros [= <-]; (do 3 eexists; reflexivity).
  - unfold defaultNode. destruct value as [[| |b|n|s|elems|obj]|name|];
      simpl; try (intros [= <-]; (do 3 eexists; reflexivity)).
    + destruct (Nat.eqb (List.length elems) 0);
        [intros [= <-]; (do 3 eexists; reflexivity)|].
      destruct (mapiM tagBadge elems); simpl; intros [= <-]; (do 3 eexists; reflexivity).
    + destruct (Nat.eqb _ 0); [intros [= <-]; (do 3 eexists; reflexivity)|].
      destruct (mapM entryRow _); simpl; intros [= <-]; (do 3 eexists; reflexivity).
Qed.

(** C2. A [null] or [undefined] value is formatted as the "Not provided"
    sentinel whatever the column is: of any declared type, with or without
    options or a custom render, and even when no column is passed at all.
    The test comes first, so nothing of the column is read. *)
Theorem nullish_is_not_provided (column : option ColumnConfig.t) :
  formatValue item VNull column = Ok notProvided
  /\ formatValue item VUndefined column = Ok notProvided
  /\ notProvided
     = NElem "span" [className "text-muted-foreground italic"]
         [NText "Not provided"].
Proof.
  repeat split.
Qed.

(** C9. The custom render of a column is applied to present values only.
    On [null] and [undefined] the sentinel is returned whatever the render
    is; on any other value the result is the render's result on that value
    and the record; so two renders that agree on the present values give
    the same formatter. *)
Theorem render_only_on_present_values (column : ColumnConfig.t)
  (r1 r2 : Value -> Record -> Node) (value : Value) :
  (forall v, is_nullish v = false -> r1 v item = r2 v item) ->
  formatValue item value (Some (with_render column r1))
  = formatValue item value (Some (with_render column r2))
  /\ (is_nullish value = true ->
      formatValue item value (Some (with_render column r1)) = Ok notProvided)
  /\ (is_nullish value = false ->
      formatValue item value (Some (with_render column r1))
      = Ok (r1 value item)).
Proof.
  intros Hagree. unfold formatValue.
  destruct (is_nullish value) eqn:Hv; simpl.
  - repeat split; congruence.
  - rewrite (Hagree value Hv). repeat split; congruence.
Qed.

Lemma entryValue_throw (val : jsval) (e : exn) :
  entryValue val = Throw e -> e = cannotConvert.
Proof.
  assert (Hs : (s' <- String_ val ;;
                Ok (NElem "span" [className "text-sm"] [NText s']))
               = Throw e -> e = cannotConvert).
  { destruct (String_ val) as [s|ex] eqn:Hval; simpl; [discriminate|].
    intros [= <-]. exact (@String_throw _ _ _ Hval). }
  unfold entryValue. destruct val; try exact Hs.
  destruct (startsWith s "http"); [discriminate | exact Hs].
Qed.

Lemma entryRow_throw (entry : string * jsval) (e : exn) :
  entryRow entry = Throw e -> e = cannotConvert.
Proof.
  destruct entry as [key val]. unfold entryRow.
  destruct (entryValue val) as [shown|ex] eqn:Hval; simpl; [discriminate|].
  intros [= <-]. exact (entryValue_throw _ Hval).
Qed.

Lemma entryValue_string (val : jsval) (s : string) :
  String_ val = Ok s ->
  exists shown,
    entryValue val = Ok shown /\ textContent shown = s.
Proof.
  intros Hs. unfold entryValue.
  assert (Hspan : exists shown,
             (s' <- String_ val ;;
              Ok (NElem "span" [className "text-sm"] [NText s']))
             = Ok shown /\ textContent shown = s).
  { rewrite Hs. simpl. eexists. split; [reflexivity|].
    simpl. apply append_empty_r. }
  destruct val; try exact Hspan.
  destruct (startsWith s0 "http"); [|exact Hspan].
  injection Hs as <-. eexists. split; [reflexivity|].
  simpl. apply append_empty_r.
Qed.

(** What the formatter raises, when it has its column and no custom
    render, is the failure of a conversion to string. *)
Lemma formatValue_throw (value : Value) (column : ColumnConfig.t) (e : exn) :
  ColumnConfig.render column = None ->
  formatValue item value (Some column) = Throw e ->
  e = cannotConvert.
Proof.
  intros Hr. unfold formatValue.
  destruct (is_nullish value); simpl; [discriminate|]. rewrite Hr.
  assert (Hstring : forall k : string -> Node,
             (s <- String_ value ;; Ok (k s)) = Throw e ->
             e = cannotConvert).
  { intros k. destruct (String_ value) as [s|e'] eqn:Hs; simpl;
      [discriminate|].
    intros [= <-]. exact (@String_throw _ _ _ Hs). }
  destruct (ColumnConfig.type column); try apply Hstring.
  - destruct (String_ value) as [s|e'] eqn:Hs.
    + rewrite (@selectNode_string value s column Hs). discriminate.
    + rewrite (@selectNode_throw value _ column Hs). intros [= <-].
      exact (@String_throw _ _ _ Hs).
  - unfold imageNode. destruct value as [[| | | |s|elems|]| |];
      try discriminate.
    destruct (Nat.ltb 0 (List.length elems)); [|discriminate].
    unfold imageGrid, mapiM.
    destruct (mapiM_from 0 thumbnail elems) as [ts|e'] eqn:Hm; simpl;
      [discriminate|].
    intros [= <-]. apply mapiM_from_throw in Hm as (x & j & _ & Hx).
    unfold thumbnail in Hx.
    destruct (String_ x) as [sx|ex] eqn:Hs; simpl in Hx; [discriminate|].
    injection Hx as <-. exact (@String_throw _ _ _ Hs).
  - unfold defaultNode. destruct value as [[| |b|n|s|elems|obj]|name|];
      try discriminate; try apply Hstring.
    + destruct (Nat.eqb (List.length elems) 0); [discriminate|].
      unfold mapiM.
      destruct (mapiM_from 0 tagBadge elems) as [ts|e'] eqn:Hm; simpl;
        [discriminate|].
      intros [= <-]. apply mapiM_from_throw in Hm as (x & j & _ & Hx).
      unfold tagBadge in Hx.
      destruct (String_ x) as [sx|ex] eqn:Hs; simpl in Hx; [discriminate|].
      injection Hx as <-. exact (@String_throw _ _ _ Hs).
    + cbv zeta. destruct (Nat.eqb _ 0); [discriminate|].
      destruct (mapM entryRow _) as [rows|e'] eqn:Hm; simpl; [discriminate|].
      intros [= <-]. apply mapM_throw in Hm as (entry & _ & Hx).
      exact (entryRow_throw _ Hx).
Qed.

(** What makes a value of each built-in kind format. *)
Lemma printable_formatValue (value : jsval) (column : ColumnConfig.t) :
  ColumnConfig.render column = None ->
  printable value = true ->
  exists node, formatValue item value (Some column) = Ok node.
Proof.
  intros Hr Hp.
  destruct (formatValue item value (Some column)) as [node|e] eqn:Hf;
    [eauto|]. exfalso.
  unfold formatValue in Hf.
  destruct (is_nullish value); [discriminate|].
  cbn [bind deref] in Hf. rewrite Hr in Hf.
  destruct (@printable_ToString _ value Hp) as [s Hs].
  assert (Hs' : String_ value = Ok s) by exact Hs.
  destruct (ColumnConfig.type column).
  - rewrite Hs' in Hf. discriminate.
  - rewrite Hs' in Hf. discriminate.
  - rewrite (@selectNode_string value s column Hs') in Hf. discriminate.
  - unfold imageNode in Hf. destruct value as [| | | |s0|elems|];
      try discriminate.
    destruct (Nat.ltb 0 (List.length elems)); [|discriminate].
    unfold imageGrid, mapiM in Hf.
    destruct (mapiM_from 0 thumbnail elems) as [ts|e'] eqn:Hm;
      simpl in Hf; [discriminate|].
    apply mapiM_from_throw in Hm as (x & j & Hin & Hx).
    rewrite printable_array, List.forallb_forall in Hp.
    destruct (@printable_ToString _ x (Hp x Hin)) as [sx Hsx].
    unfold thumbnail in Hx. change (String_ x) with (ToString x) in Hx.
    rewrite Hsx in Hx. discriminate.
  - rewrite Hs' in Hf. discriminate.
  - unfold defaultNode in Hf. destruct value as [| |b|n|s0|elems|obj];
      try discriminate.
    + destruct (Nat.eqb (List.length elems) 0); [discriminate|].
      unfold mapiM in Hf.
      destruct (mapiM_from 0 tagBadge elems) as [ts|e'] eqn:Hm;
        simpl in Hf; [discriminate|].
      apply mapiM_from_throw in Hm as (x & j & Hin & Hx).
      rewrite printable_array, List.forallb_forall in Hp.
      destruct (@printable_ToString _ x (Hp x Hin)) as [sx Hsx].
      unfold tagBadge in Hx. change (String_ x) with (ToString x) in Hx.
      rewrite Hsx in Hx. discriminate.
    + cbv zeta in Hf. destruct (Nat.eqb _ 0); [discriminate|].
      destruct (mapM entryRow _) as [rows|e'] eqn:Hm; simpl in Hf;
        [discriminate|].
      apply mapM_throw in Hm as ([key val] & Hin & Hx).
      apply List.filter_In in Hin as [Hin _].
      assert (Hpv : printable val = true).
      { simpl in Hp. destruct (own obj "toString"); [discriminate|].
        clear - Hp Hin. induction obj as [|x l IH]; [contradiction|].
        apply andb_true_iff in Hp as [Hx Hl].
        destruct Hin as [-> | Hin]; [exact Hx | now apply IH]. }
      destruct (@printable_ToString _ val Hpv) as [sv Hsv].
      destruct (@entryValue_string val sv Hsv) as (shown & Hshown & _).
      unfold entryRow in Hx. rewrite Hshown in Hx. discriminate.
Qed.

(** C8, as the code has it. Without a custom render the formatter returns
    a node for every value in which no mapping has an own [toString]:
    [null], strings, numbers, booleans, and the arrays and mappings made of
    such values. The one thing it ever raises is the failure of [String] on
    a mapping with an own [toString]. A [date] column whose value does not
    parse shows the text "Invalid Date", and a [url] column shows the
    string of the value as the text and the target of a link. *)
Theorem formatValue_total (value : jsval) (column : ColumnConfig.t) :
  ColumnConfig.render column = None ->
  (printable value = true ->
   exists node, formatValue item value (Some column) = Ok node)
  /\ (forall e,
      formatValue item value (Some column) = Throw e ->
      e = TypeError "Cannot convert object to primitive value")
  /\ (forall s,
      ColumnConfig.type column = ColumnType.date ->
      is_nullish value = false ->
      String_ value = Ok s ->
      Date_parse s = None ->
      formatValue item value (Some column)
      = Ok (NElem "div" [className "flex items-center gap-2"]
              [ NElem "Calendar" [className "h-4 w-4 text-muted-foreground"] [];
                NElem "span" [] [NText "Invalid Date"] ]))
  /\ (forall s,
      ColumnConfig.type column = ColumnType.url ->
      is_nullish value = false ->
      String_ value = Ok s ->
      exists props,
        formatValue item value (Some column)
        = Ok (NElem "a" (("href", PStr s) :: props)
                [ NText s;
                  NElem "ExternalLink" [className "h-3 w-3"] [] ])).
Proof.
  intros Hr. split; [now apply printable_formatValue|].
  split; [intros e; now apply formatValue_throw|].
  unfold formatValue. split; intros s Ht Hv Hs.
  - intros Hd. rewrite Hv. cbn [bind deref]. rewrite Hr, Ht, Hs. simpl.
    unfold dateNode, toLocaleDateString. now rewrite Hd.
  - rewrite Hv. cbn [bind deref]. rewrite Hr, Ht, Hs. simpl.
    unfold urlNode. eauto.
Qed.

(** C3. A [select] column without a custom render, for a value with the
    string [s]: the first option whose [value] is [s] gives a secondary
    badge with that option's label, its icon when it has one, and its color
    as text color and (with "20" appended) as background; when some option
    matches, the badge is that of a matching option; when none does, or the
    column has no options, the badge is the outlined one that shows [s] as
    it is. A value that has no string makes the formatter raise. *)
Theorem select_badge (column : ColumnConfig.t) (value : Value) :
  ColumnConfig.type column = ColumnType.select ->
  ColumnConfig.render column = None ->
  is_nullish value = false ->
  (forall s pre option post,
      String_ value = Ok s ->
      ColumnConfig.options column = Some (pre ++ option :: post)%list ->
      (forall o, In o pre -> SelectOption.value o <> s) ->
      SelectOption.value option = s ->
      formatValue item value (Some column) = Ok (optionBadge option))
  /\ (forall s opts option,
      String_ value = Ok s ->
      ColumnConfig.options column = Some opts ->
      In option opts ->
      SelectOption.value option = s ->
      exists option',
        In option' opts
        /\ SelectOption.value option' = s
        /\ formatValue item value (Some column) = Ok (optionBadge option'))
  /\ (forall s,
      String_ value = Ok s ->
      (ColumnConfig.options column = None
       \/ exists opts,
           ColumnConfig.options column = Some opts
           /\ forall o, In o opts -> SelectOption.value o <> s) ->
      formatValue item value (Some column)
      = Ok (NElem "Badge" [("variant", PStr "outline")] [NText s]))
  /\ (forall e,
      String_ value = Throw e ->
      formatValue item value (Some column) = Throw e)
  /\ (forall option,
      optionBadge option
      = NElem "Badge"
          [ ("variant", PStr "secondary");
            ("style",
              match SelectOption.color option with
              | Some c =>
                  if string_truthy c
                  then PStyle [("backgroundColor", c ++ "20"); ("color", c)]
                  else PUndefined
              | None => PUndefined
              end) ]
          [ match SelectOption.icon option with
            | Some icon =>
                if node_truthy icon
                then NElem "span" [className "mr-1"] [icon]
                else icon
            | None => NUndefined
            end;
            NText (SelectOption.label option) ]).
Proof.
  intros Ht Hr Hv.
  assert (Hselect : formatValue item value (Some column)
                    = selectNode value column).
  { unfold formatValue. rewrite Hv. cbn [bind deref]. now rewrite Hr, Ht. }
  rewrite Hselect. split; [|split; [|split; [|split]]].
  - intros s pre option post Hs Hopts Hpre Hopt.
    rewrite (@selectNode_string value s column Hs), Hopts.
    rewrite find_first; [reflexivity| |].
    + intros o Ho. apply String.eqb_neq. now apply Hpre.
    + now apply String.eqb_eq.
  - intros s opts option Hs Hopts Hin Hopt.
    rewrite (@selectNode_string value s column Hs), Hopts.
    destruct (List.find _ opts) as [option'|] eqn:Hfind.
    + exists option'. apply List.find_some in Hfind as [Hin' Heq].
      apply String.eqb_eq in Heq. now repeat split.
    + apply (List.find_none _ _ Hfind) in Hin.
      apply String.eqb_neq in Hin. contradiction.
  - intros s Hs [Hnone | [opts [Hopts Hmiss]]];
      rewrite (@selectNode_string value s column Hs).
    + now rewrite Hnone.
    + rewrite Hopts.
      replace (List.find _ opts) with (@None SelectOption.t); [reflexivity|].
      symmetry. apply find_none_iff. intros o Ho.
      apply String.eqb_neq. now apply Hmiss.
  - intros e Hs. exact (@selectNode_throw value e column Hs).
  - intros option. unfold optionBadge, js_and, optNode.
    destruct (SelectOption.icon option); reflexivity.
Qed.

Lemma imageCaption_text (count : nat) :
  textContent (imageCaption count)
  = nat_String count ++ " image" ++ (if Nat.ltb 1 count then "s" else "").
Proof.
  unfold imageCaption. simpl. rewrite Number_toString_of_nat.
  now rewrite append_empty_r.
Qed.

(** C4. An [image] column without a custom render. A string with a
    character that is not white space gives one image of that source,
    400 by 300, bypassing the optimizer for a "data:" or "blob:" source. An
    array of [n >= 1] strings gives the grid of [n] thumbnails, the one at
    index [i] being the 150 by 150 image of the string at index [i] with
    the alternate text "Image [i+1]", followed by a caption that shows [n]
    and reads "[n] images", or "1 image" for one. The empty array and the
    empty or all-white-space string give the "No image" sentinel. *)
Theorem image_column (column : ColumnConfig.t) :
  ColumnConfig.type column = ColumnType.image ->
  ColumnConfig.render column = None ->
  (forall s,
      all_space s = false ->
      formatValue item (VString s) (Some column)
      = Ok (NElem "div" [className "space-y-2"]
              [ NElem "div" [className "relative w-full max-w-md mx-auto"]
                  [ NElem "Image"
                      [ ("src", PStr s);
                        ("alt", PStr "Detail image");
                        ("width", PNat 400);
                        ("height", PNat 300);
                        className "rounded-lg border object-cover w-full";
                        ("unoptimized",
                          PBool (startsWith s "data:"
                                 || startsWith s "blob:")) ]
                      [] ] ]))
  /\ (forall srcs,
      srcs <> [] ->
      exists thumbnails caption,
        formatValue item (VArray (List.map VString srcs)) (Some column)
        = Ok (NElem "div" [className "space-y-3"]
                [ NElem "div"
                    [className "grid grid-cols-2 sm:grid-cols-3 gap-3"]
                    [NArray thumbnails];
                  caption ])
        /\ List.length thumbnails = List.length srcs
        /\ (forall i src,
            List.nth_error srcs i = Some src ->
            List.nth_error thumbnails i
            = Some (NElem "div"
                      [("key", PNat i); className "relative aspect-square"]
                      [ NElem "Image"
                          [ ("src", PStr src);
                            ("alt", PStr ("Image " ++ nat_String (i + 1)));
                            ("width", PNat 150);
                            ("height", PNat 150);
                            className
                              "rounded-lg border object-cover w-full h-full";
                            ("unoptimized",
                              PBool (startsWith src "data:"
                                     || startsWith src "blob:")) ]
                          [] ]))
        /\ caption
           = NElem "p" [className "text-sm text-muted-foreground text-center"]
               [ NNumber (number_of_nat (List.length srcs));
                 NText " image";
                 NText (if Nat.eqb (List.length srcs) 1 then "" else "s") ]
        /\ textContent caption
           = nat_String (List.length srcs) ++ " image"
             ++ (if Nat.eqb (List.length srcs) 1 then "" else "s"))
  /\ formatValue item (VArray []) (Some column)
     = Ok (NElem "span" [className "text-muted-foreground italic"]
             [NText "No image"])
  /\ (forall s,
      all_space s = true ->
      formatValue item (VString s) (Some column)
      = Ok (NElem "span" [className "text-muted-foreground italic"]
              [NText "No image"])).
Proof.
  intros Ht Hr.
  assert (Himage : forall value : jsval,
             is_nullish value = false ->
             formatValue item value (Some column) = imageNode value).
  { intros value Hv. unfold formatValue. rewrite Hv. cbn [bind deref].
    now rewrite Hr, Ht. }
  split; [|split; [|split]].
  - intros s Hs. rewrite Himage by reflexivity. unfold imageNode.
    apply trim_truthy_iff in Hs. now rewrite Hs.
  - intros srcs Hne. rewrite Himage by reflexivity. unfold imageNode.
    destruct srcs as [|s0 srcs']; [contradiction|].
    set (srcs := s0 :: srcs') in *.
    assert (Hlen : List.length (List.map VString srcs) = List.length srcs)
      by apply List.length_map.
    change (Nat.ltb 0 (List.length (List.map VString srcs))) with true.
    cbv iota. unfold imageGrid, mapiM.
    rewrite (thumbnails_of_strings (strings_have_strings srcs)).
    cbn [bind]. do 2 eexists. split; [reflexivity|].
    split; [apply mapi_from_length|]. split; [|split].
    + intros i src Hsrc. rewrite nth_error_mapi_from, Hsrc. reflexivity.
    + rewrite Hlen. unfold imageCaption. do 3 f_equal.
      unfold srcs. simpl List.length. destruct (List.length srcs');
        reflexivity.
    + rewrite imageCaption_text, Hlen. unfold srcs. simpl List.length.
      destruct (List.length srcs'); reflexivity.
  - rewrite Himage by reflexivity. reflexivity.
  - intros s Hs. rewrite Himage by reflexivity. unfold imageNode.
    apply trim_empty_iff in Hs. now rewrite Hs.
Qed.

(** C10. A [textarea] column without a custom render puts the string of
    the value, each line feed replaced by "<br>", into the
    [dangerouslySetInnerHTML] attribute of an element without children: it
    is markup for the rendering layer, not a text child. A string without
    line feeds is passed on unchanged, markup characters included. A value
    that has no string makes the formatter raise. *)
Theorem textarea_inner_html (column : ColumnConfig.t) (value : Value) :
  ColumnConfig.type column = ColumnType.textarea ->
  ColumnConfig.render column = None ->
  is_nullish value = false ->
  (forall s,
      String_ value = Ok s ->
      formatValue item value (Some column)
      = Ok (NElem "div" [className "prose prose-sm max-w-none"]
              [ NElem "div"
                  [ className "whitespace-pre-wrap text-sm leading-relaxed";
                    ("dangerouslySetInnerHTML",
                      PInnerHTML (replace_newlines s)) ]
                  [] ]))
  /\ (forall e,
      String_ value = Throw e ->
      formatValue item value (Some column) = Throw e)
  /\ (forall s t,
      replace_newlines (s ++ String newline t)
      = replace_newlines s ++ "<br>" ++ replace_newlines t)
  /\ (forall s, no_newline s = true -> replace_newlines s = s).
Proof.
  intros Ht Hr Hv. unfold formatValue. rewrite Hv. cbn [bind deref].
  rewrite Hr, Ht. split; [|split; [|split]].
  - intros s Hs. now rewrite Hs.
  - intros e Hs. now rewrite Hs.
  - intros s t. rewrite replace_newlines_app. reflexivity.
  - apply replace_newlines_verbatim.
Qed.

End Formatter.
(** ** The field grouper *)

Lemma includes_col_In (fields : list loc) (col : loc) :
  includes_col fields col = true <-> In col fields.
Proof.
  unfold includes_col. rewrite List.existsb_exists. split.
  - intros [x [Hin Heq]]. apply Nat.eqb_eq in Heq. now subst.
  - intros Hin. exists col. split; [assumption | apply Nat.eqb_refl].
Qed.

(** Among the columns, [includes] on a filtered array answers the filter's
    own test. *)
Lemma includes_col_filter (p : loc -> bool) (columns : list loc) (col : loc) :
  In col columns -> includes_col (List.filter p columns) col = p col.
Proof.
  intros Hin. destruct (p col) eqn:Hp.
  - apply includes_col_In, List.filter_In. now split.
  - destruct (includes_col (List.filter p columns) col) eqn:Hi; [|reflexivity].
    apply includes_col_In, List.filter_In in Hi. destruct Hi. congruence.
Qed.

(** A four-way split by tests of which exactly one holds of each element
    rearranges the list. *)
Lemma filter4_Permutation {A : Type} (p1 p2 p3 p4 : A -> bool) (l : list A) :
  (forall x, In x l ->
     Nat.b2n (p1 x) + Nat.b2n (p2 x) + Nat.b2n (p3 x) + Nat.b2n (p4 x) = 1) ->
  Permutation l
    (List.filter p1 l ++ List.filter p2 l
       ++ List.filter p3 l ++ List.filter p4 l)%list.
Proof.
  induction l as [|x l IH]; intros Hone; [constructor|].
  assert (Hl : forall y, In y l ->
             Nat.b2n (p1 y) + Nat.b2n (p2 y) + Nat.b2n (p3 y) + Nat.b2n (p4 y) = 1)
    by (intros y Hy; apply Hone; now right).
  specialize (IH Hl). specialize (Hone x (or_introl eq_refl)).
  simpl.
  destruct (p1 x), (p2 x), (p3 x), (p4 x); simpl in Hone; try discriminate.
  - simpl. now constructor.
  - now apply Permutation_cons_app.
  - rewrite List.app_assoc. apply Permutation_cons_app.
    now rewrite <- List.app_assoc.
  - rewrite 2 List.app_assoc. apply Permutation_cons_app.
    now rewrite <- 2 List.app_assoc.
Qed.

Section Grouper.
Context `{JsHost}.
Variable st : Store.

(** No key is both a basic and a meta name. *)
Lemma basic_not_meta (col : loc) :
  isBasic st col = true -> isMeta st col = false.
Proof.
  unfold isBasic, isMeta, includes, basicKeys, metaKeys.
  generalize (ColumnConfig.key (st col)) as k. intros k. simpl.
  repeat match goal with
         | |- context [String.eqb k ?s] =>
             let E := fresh "E" in
             destruct (String.eqb k s) eqn:E;
             [apply String.eqb_eq in E; subst k; simpl; congruence|]
         end.
  simpl. congruence.
Qed.

(** What is left for [otherFields] are the columns that fail the three
    tests. *)
Lemma otherFields_filter (columns : list loc) :
  otherFields st columns
  = List.filter
      (fun col =>
         negb (isBasic st col) && negb (isMedia st col) && negb (isMeta st col))
      columns.
Proof.
  unfold otherFields, basicFields, mediaFields, metaFields.
  apply List.filter_ext_in. intros col Hin.
  now rewrite !includes_col_filter.
Qed.

Lemma otherFields_In (columns : list loc) (col : loc) :
  In col (otherFields st columns)
  <-> In col columns
      /\ isBasic st col = false /\ isMedia st col = false
      /\ isMeta st col = false.
Proof.
  rewrite otherFields_filter, List.filter_In.
  rewrite !andb_true_iff, !negb_true_iff. tauto.
Qed.

(** C1, as the code has it. The four buckets cover the columns and hold
    nothing else; [otherFields] shares no column with the three others, and
    [basicFields] none with [metaFields]; [mediaFields] is every column of
    type [image] or with "image" in its key, whether or not its key is a
    basic or meta name. When no media column has such a key, the buckets are
    a partition: the columns rearranged, each exactly once. *)
Theorem buckets_cover_columns (columns : list loc) :
  (forall col,
      In col columns
      <-> In col (basicFields st columns) \/ In col (mediaFields st columns)
          \/ In col (otherFields st columns) \/ In col (metaFields st columns))
  /\ (forall col,
      In col (otherFields st columns) ->
      ~ In col (basicFields st columns)
      /\ ~ In col (mediaFields st columns)
      /\ ~ In col (metaFields st columns))
  /\ (forall col,
      In col (basicFields st columns) -> ~ In col (metaFields st columns))
  /\ (forall col,
      In col (mediaFields st columns)
      <-> In col columns
          /\ (ColumnConfig.type (st col) = ColumnType.image
              \/ includes_str (ColumnConfig.key (st col)) "image" = true))
  /\ ((forall col,
        In col columns -> isMedia st col = true ->
        isBasic st col = false /\ isMeta st col = false) ->
      Permutation columns
        (basicFields st columns ++ mediaFields st columns
           ++ otherFields st columns ++ metaFields st columns)%list).
Proof.
  split; [|split; [|split; [|split]]].
  - intros col. split.
    + intros Hin.
      destruct (isBasic st col) eqn:Hb;
        [left; apply List.filter_In; now split|].
      destruct (isMedia st col) eqn:Hm;
        [right; left; apply List.filter_In; now split|].
      destruct (isMeta st col) eqn:He;
        [do 3 right; apply List.filter_In; now split|].
      right; right; left. now apply otherFields_In.
    + intros [Hin | [Hin | [Hin | Hin]]].
      * now apply List.filter_In in Hin.
      * now apply List.filter_In in Hin.
      * now apply otherFields_In in Hin.
      * now apply List.filter_In in Hin.
  - intros col Ho. apply otherFields_In in Ho.
    destruct Ho as (_ & Hb & Hm & He).
    repeat split; intros Hx; apply List.filter_In in Hx;
      destruct Hx; congruence.
  - intros col Hb He. apply List.filter_In in Hb, He.
    destruct Hb as [_ Hb], He as [_ He].
    apply basic_not_meta in Hb. congruence.
  - intros col. unfold mediaFields. rewrite List.filter_In.
    unfold isMedia. rewrite orb_true_iff.
    assert (Himg : ColumnType.eqb (ColumnConfig.type (st col)) ColumnType.image
                   = true
                   <-> ColumnConfig.type (st col) = ColumnType.image).
    { destruct (ColumnConfig.type (st col)); simpl; split; congruence. }
    rewrite Himg. reflexivity.
  - intros Hsep. rewrite otherFields_filter.
    unfold basicFields, mediaFields, metaFields.
    apply (filter4_Permutation (isBasic st) (isMedia st)
             (fun col => negb (isBasic st col) && negb (isMedia st col)
                         && negb (isMeta st col))
             (isMeta st)).
    intros col Hin. specialize (Hsep col Hin).
    pose proof (basic_not_meta col) as Hbm.
    destruct (isBasic st col), (isMedia st col), (isMeta st col);
      simpl; try reflexivity;
      try (destruct (Hsep eq_refl); discriminate);
      try (specialize (Hbm eq_refl); discriminate).
Qed.

End Grouper.

(** ** Sections, separators and the title *)

Section Presenter.
Context `{JsHost}.
Variable item : Record.
Variable st : Store.

Lemma nonEmpty_false {A : Type} (l : list A) :
  nonEmpty l = false <-> l = [].
Proof.
  destruct l; unfold nonEmpty, Nat.ltb; simpl; split; congruence.
Qed.

(** When the formatter returns for each of its fields, a section is [null]
    for no fields and a [div] otherwise, and it is never a separator. *)
Lemma renderFieldSection_cases (sectionTitle : string) (fields : list loc) :
  (forall col,
      In col fields ->
      exists node,
        formatValue item (get item (ColumnConfig.key (st col)))
          (Some (st col)) = Ok node) ->
  exists section,
    renderFieldSection item st sectionTitle fields = Ok section
    /\ rendered section = nonEmpty fields
    /\ isSeparator section = false
    /\ (fields = [] -> section = NNull).
Proof.
  intros Hformats. unfold renderFieldSection.
  destruct fields as [|col fields].
  - exists NNull. simpl. repeat split.
  - destruct (mapM_ok_in
                (fun col =>
                   let column := st col in
                   formatted <- formatValue item
                                  (get item (ColumnConfig.key column))
                                  (Some column) ;;
                   Ok (fieldNode column formatted))
                (col :: fields)) as [rows [Hrows _]].
    + intros c Hc. cbv zeta. destruct (Hformats c Hc) as [node Hnode].
      rewrite Hnode. simpl. eauto.
    + cbv zeta in Hrows.
      change (Nat.eqb (List.length (col :: fields)) 0) with false.
      cbv iota. rewrite Hrows. simpl.
      eexists. repeat split. discriminate.
Qed.


(** *** The title *)

(** A non-empty explicit title is the title. *)
Lemma dialogTitle_explicit (columns : list loc) (title : string) :
  string_truthy title = true ->
  dialogTitle item st columns (Some title) = Ok (NText title).
Proof.
  intros Ht. unfold dialogTitle. now rewrite Ht.
Qed.

(** Without a non-empty title, the title is made from the first column. *)
Lemma dialogTitle_fallback (columns : list loc) (title : option string) :
  (title = None \/ title = Some "") ->
  dialogTitle item st columns title
  = (formatted <-
       formatValue item
         (get item
            (prop_key
               (option_map ColumnConfig.key
                  (option_map st (List.nth_error columns 0)))))
         (option_map st (List.nth_error columns 0)) ;;
     Ok (js_or formatted (NText "Details"))).
Proof.
  intros [-> | ->]; reflexivity.
Qed.

(** With a first column of a built-in kind the last alternative is never
    taken: the title is what the formatter returns, the "Not provided"
    sentinel included. *)
Lemma dialogTitle_builtin (col : loc) (columns : list loc) :
  ColumnConfig.render (st col) = None ->
  dialogTitle item st (col :: columns) None
  = formatValue item (get item (ColumnConfig.key (st col))) (Some (st col))
  /\ dialogTitle item st (col :: columns) None <> Ok (NText "Details").
Proof.
  intros Hr. rewrite dialogTitle_fallback by now left. simpl.
  destruct (formatValue item (get item (ColumnConfig.key (st col)))
              (Some (st col))) as [formatted|e] eqn:Hf; simpl;
    [|split; [reflexivity | discriminate]].
  destruct (formatValue_builtin_element item _ _ Hr Hf)
    as (tag & props & children & ->).
  split; [reflexivity | discriminate].
Qed.

(** A first column whose value is missing from the record gives the title
    "Not provided". *)
Lemma dialogTitle_missing_value (col : loc) (columns : list loc) :
  get item (ColumnConfig.key (st col)) = Data VUndefined ->
  dialogTitle item st (col :: columns) None = Ok notProvided.
Proof.
  intros Hv. unfold dialogTitle. simpl. now rewrite Hv.
Qed.

End Presenter.

(** C6. Without a title and without columns, the title of the dialog for
    the empty record is not "Details": [columns[0]] is [undefined], the
    record has no field under that key, and the formatter's "Not provided"
    sentinel, an element, is truthy. *)
Theorem dialogTitle_without_columns `{JsHost} (st : Store) :
  dialogTitle [] st [] None = Ok notProvided
  /\ dialogTitle [] st [] None <> Ok (NText "Details")
  /\ dialogTitle [] st [] (Some "") = Ok notProvided.
Proof.
  repeat split. discriminate.
Qed.

(** ** The action bar *)


(** ** Further properties of the component *)

Section Further.
Context `{JsHost}.
Variable item : Record.
Variable st : Store.

Lemma bodyChildren_ok (columns : list loc) :
  (forall col,
      In col columns ->
      exists node,
        formatValue item (get item (ColumnConfig.key (st col)))
          (Some (st col)) = Ok node) ->
  exists body, bodyChildren item st columns = Ok body.
Proof.
  intros Hformats.
  assert (Hsub : forall p col,
             In col (List.filter p columns) ->
             exists node,
               formatValue item (get item (ColumnConfig.key (st col)))
                 (Some (st col)) = Ok node).
  { intros p col Hin. apply List.filter_In in Hin as [Hin _].
    now apply Hformats. }
  destruct (renderFieldSection_cases item st "Basic Information"
              (basicFields st columns) (Hsub _)) as (s1 & E1 & _).
  destruct (renderFieldSection_cases item st "Media"
              (mediaFields st columns) (Hsub _)) as (s2 & E2 & _).
  destruct (renderFieldSection_cases item st "Additional Information"
              (otherFields st columns) (Hsub _)) as (s3 & E3 & _).
  destruct (renderFieldSection_cases item st "Meta Information"
              (metaFields st columns) (Hsub _)) as (s4 & E4 & _).
  unfold bodyChildren. cbv zeta. rewrite E1, E2, E3, E4. simpl. eauto.
Qed.

(** A section with a field that the formatter raises on raises. *)
Lemma renderFieldSection_throw (sectionTitle : string) (fields : list loc)
  (col : loc) (e : exn) :
  In col fields ->
  formatValue item (get item (ColumnConfig.key (st col))) (Some (st col))
  = Throw e ->
  exists e', renderFieldSection item st sectionTitle fields = Throw e'.
Proof.
  intros Hin Hf. unfold renderFieldSection.
  destruct fields as [|c0 fields']; [contradiction|].
  change (Nat.eqb (List.length (c0 :: fields')) 0) with false. cbv iota.
  destruct (@mapM_In_throw _ _
              (fun col =>
                 let column := st col in
                 formatted <- formatValue item
                                (get item (ColumnConfig.key column))
                                (Some column) ;;
                 Ok (fieldNode column formatted))
              (c0 :: fields') col e Hin) as [e' He'].
  { cbv zeta. now rewrite Hf. }
  cbv zeta in He'. rewrite He'. simpl. eauto.
Qed.

(** The body raises as soon as the formatter raises on a column. *)
Lemma bodyChildren_throw (columns : list loc) (col : loc) (e : exn) :
  In col columns ->
  formatValue item (get item (ColumnConfig.key (st col))) (Some (st col))
  = Throw e ->
  exists e', bodyChildren item st columns = Throw e'.
Proof.
  intros Hin Hf. unfold bodyChildren. cbv zeta.
  assert (Hbucket :
            In col (basicFields st columns)
            \/ In col (mediaFields st columns)
            \/ In col (otherFields st columns)
            \/ In col (metaFields st columns)).
  { destruct (isBasic st col) eqn:Hb;
      [left; apply List.filter_In; now split|].
    destruct (isMedia st col) eqn:Hm;
      [right; left; apply List.filter_In; now split|].
    destruct (isMeta st col) eqn:He;
      [do 3 right; apply List.filter_In; now split|].
    right; right; left. now apply otherFields_In. }
  destruct (renderFieldSection item st "Basic Information"
              (basicFields st columns)) as [s1|e1] eqn:E1; [|simpl; eauto].
  destruct (renderFieldSection item st "Media" (mediaFields st columns))
    as [s2|e2] eqn:E2; [|simpl; eauto].
  destruct (renderFieldSection item st "Additional Information"
              (otherFields st columns)) as [s3|e3] eqn:E3; [|simpl; eauto].
  destruct (renderFieldSection item st "Meta Information"
              (metaFields st columns)) as [s4|e4] eqn:E4; [|simpl; eauto].
  exfalso.
  destruct Hbucket as [Hb | [Hb | [Hb | Hb]]].
  - destruct (@renderFieldSection_throw "Basic Information" _ _ _ Hb Hf)
      as [e' He']. congruence.
  - destruct (@renderFieldSection_throw "Media" _ _ _ Hb Hf) as [e' He'].
    congruence.
  - destruct (@renderFieldSection_throw "Additional Information" _ _ _ Hb Hf)
      as [e' He']. congruence.
  - destruct (@renderFieldSection_throw "Meta Information" _ _ _ Hb Hf)
      as [e' He']. congruence.
Qed.

(** An untyped column without a custom render shows the empty array as the
    "None" sentinel and an array whose elements have strings as one
    outlined tag badge per element, in order, the one at index [i] showing
    the string of the element at index [i]. An element that has no string
    makes the formatter raise. *)
Theorem untyped_array_tags (column : ColumnConfig.t) (elems : list jsval) :
  ColumnConfig.type column = ColumnType.untyped ->
  ColumnConfig.render column = None ->
  formatValue item (VArray []) (Some column)
  = Ok (NElem "span" [className "text-muted-foreground italic"]
          [NText "None"])
  /\ (forall texts,
      elems <> [] ->
      List.Forall2 (fun (e : jsval) s => String_ e = Ok s) elems texts ->
      exists tags,
        formatValue item (VArray elems) (Some column)
        = Ok (NElem "div" [className "flex flex-wrap gap-1"] [NArray tags])
        /\ List.length tags = List.length elems
        /\ (forall i s,
            List.nth_error texts i = Some s ->
            List.nth_error tags i
            = Some (NElem "Badge"
                      [ ("key", PNat i); ("variant", PStr "outline");
                        className "text-xs" ]
                      [ NElem "Tag" [className "h-3 w-3 mr-1"] [];
                        NText s ]))
        /\ List.map textContent tags = texts)
  /\ (forall (x : jsval) e,
      In x elems ->
      String_ x = Throw e ->
      exists e', formatValue item (VArray elems) (Some column) = Throw e').
Proof.
  intros Ht Hr.
  assert (Hdefault : forall l : list jsval,
             formatValue item (VArray l) (Some column)
             = defaultNode (VArray l)).
  { intros l. unfold formatValue. simpl. now rewrite Hr, Ht. }
  split; [rewrite Hdefault; reflexivity|]. split.
  - intros texts Hne Hall. rewrite Hdefault. unfold defaultNode.
    destruct elems as [|e0 elems']; [contradiction|].
    change (Nat.eqb (List.length (e0 :: elems')) 0) with false. cbv iota.
    unfold mapiM.
    rewrite (@mapiM_from_Forall2 _ _ _ tagBadge
               (fun s index =>
                  NElem "Badge"
                    [ ("key", PNat index); ("variant", PStr "outline");
                      className "text-xs" ]
                    [ NElem "Tag" [className "h-3 w-3 mr-1"] []; NText s ])
               (fun (e : jsval) s => String_ e = Ok s)
               (e0 :: elems') texts);
      [| intros a c i Hac; unfold tagBadge; now rewrite Hac | exact Hall].
    cbn [bind]. eexists. split; [reflexivity|].
    split; [|split].
    + rewrite mapi_from_length. symmetry. exact (List.Forall2_length Hall).
    + intros i s Hs. rewrite nth_error_mapi_from, Hs. reflexivity.
    + clear. generalize 0. induction texts as [|s l IH]; intros i;
        [reflexivity|].
      simpl. rewrite append_empty_r. f_equal. apply IH.
  - intros x e Hin Hx. rewrite Hdefault. unfold defaultNode.
    destruct elems as [|e0 elems']; [contradiction|].
    change (Nat.eqb (List.length (e0 :: elems')) 0) with false. cbv iota.
    unfold mapiM.
    destruct (mapiM_from 0 tagBadge (e0 :: elems')) as [tags|e'] eqn:Hm;
      [|simpl; eauto].
    exfalso. clear - Hm Hin Hx. revert Hm. generalize 0. revert tags.
    induction (e0 :: elems') as [|y l IH]; intros tags i; [contradiction|].
    simpl. destruct (tagBadge y i) as [t|et] eqn:Hy; simpl; [|discriminate].
    destruct (mapiM_from (S i) tagBadge l) as [ts|el] eqn:Hl; simpl;
      [|discriminate].
    intros _. destruct Hin as [-> | Hin].
    + unfold tagBadge in Hy. rewrite Hx in Hy. discriminate.
    + exact (IH Hin ts (S i) Hl).
Qed.

(** A column keyed "email" is in the basic bucket and not in the other
    bucket, wherever it stands in the column list and whatever its type. *)
Theorem email_is_basic (columns : list loc) (col : loc) :
  In col columns ->
  ColumnConfig.key (st col) = "email" ->
  In col (basicFields st columns) /\ ~ In col (otherFields st columns).
Proof.
  intros Hin Hkey.
  assert (Hb : isBasic st col = true) by (unfold isBasic; now rewrite Hkey).
  split.
  - apply List.filter_In. now split.
  - intros Ho. apply otherFields_In in Ho. destruct Ho as (_ & Hb' & _).
    congruence.
Qed.


(** With at least one column, the component returns its tree when the
    formatter returns for the value of every column, and raises when it
    raises for some column. Without a column and without a title it raises
    when the record has a present value under the key "undefined", the key
    that [columns[0]?.key] is converted to. *)
Theorem modal_renders (isOpen : bool) (onClose : World -> World)
  (columns : list loc) (title : option string)
  (actions : option (list ActionConfig.t)) (className_ : option string) :
  (columns <> [] ->
   (forall col,
       In col columns ->
       exists node,
         formatValue item (get item (ColumnConfig.key (st col)))
           (Some (st col)) = Ok node) ->
   exists tree,
     DynamicDetailsModal isOpen onClose item st columns title actions
       className_ = Ok tree)
  /\ (forall col e,
      In col columns ->
      formatValue item (get item (ColumnConfig.key (st col))) (Some (st col))
      = Throw e ->
      exists e',
        DynamicDetailsModal isOpen onClose item st columns title actions
          className_ = Throw e')
  /\ (is_nullish (get item "undefined") = false ->
      exists e,
        DynamicDetailsModal isOpen onClose item st [] None actions className_
        = Throw e).
Proof.
  split; [|split].
  - intros Hne Hformats. destruct columns as [|col columns']; [contradiction|].
    unfold DynamicDetailsModal.
    destruct (bodyChildren_ok (col :: columns') Hformats) as [body Hbody].
    assert (Ht : exists t,
               dialogTitle item st (col :: columns') title = Ok t).
    { destruct (Hformats col (or_introl eq_refl)) as [formatted Hf].
      destruct title as [t|].
      - destruct (string_truthy t) eqn:Htruthy.
        + rewrite (dialogTitle_explicit item st _ t Htruthy). eauto.
        + unfold dialogTitle. rewrite Htruthy. simpl. rewrite Hf.
          simpl. eauto.
      - unfold dialogTitle. simpl. rewrite Hf. simpl. eauto. }
    destruct Ht as [t Ht]. rewrite Ht, Hbody. simpl. eauto.
  - intros col e Hin Hf. unfold DynamicDetailsModal.
    destruct (dialogTitle item st columns title) as [t|et]; [|simpl; eauto].
    destruct (bodyChildren_throw columns col Hin Hf) as [e' ->].
    simpl. eauto.
  - intros Hv. unfold DynamicDetailsModal, dialogTitle, formatValue.
    simpl. rewrite Hv. simpl. eauto.
Qed.

End Further.

(** ** What the formatter puts into the tree *)

Lemma string_app_assoc (a b c : string) : (a ++ b) ++ c = a ++ b ++ c.
Proof.
  induction a as [|x a IH]; simpl; [reflexivity | now rewrite IH].
Qed.

Lemma Forall_existsb_false {A : Type} (g : A -> bool) (l : list A) :
  List.Forall (fun b => g b = false) l -> List.existsb g l = false.
Proof.
  induction 1 as [|b l Hb _ IH]; simpl; [reflexivity|].
  now rewrite Hb, IH.
Qed.

Section Trees.
Context `{JsHost}.

Lemma hasInnerHTML_NArray (items : list Node) :
  hasInnerHTML (NArray items) = List.existsb hasInnerHTML items.
Proof. reflexivity. Qed.

Lemma hasInnerHTML_NElem (tag : string) (props : list (string * PropVal))
  (children : list Node) :
  hasInnerHTML (NElem tag props children)
  = List.existsb isInnerHTML props || List.existsb hasInnerHTML children.
Proof. reflexivity. Qed.

(** Opens an element: its own attributes, then its children one by one. *)
Ltac wrapper :=
  rewrite hasInnerHTML_NElem; cbn [List.existsb].

Lemma thumbnail_plain (img : jsval) (index : nat) (node : Node) :
  thumbnail img index = Ok node -> hasInnerHTML node = false.
Proof.
  unfold thumbnail. destruct (String_ img); simpl; [|discriminate].
  now intros [= <-].
Qed.

Lemma tagBadge_plain (x : jsval) (index : nat) (node : Node) :
  tagBadge x index = Ok node -> hasInnerHTML node = false.
Proof.
  unfold tagBadge. destruct (String_ x); simpl; [|discriminate].
  now intros [= <-].
Qed.

Lemma entryValue_plain (val : jsval) (shown : Node) :
  entryValue val = Ok shown -> hasInnerHTML shown = false.
Proof.
  assert (Hspan : (s' <- String_ val ;;
                   Ok (NElem "span" [className "text-sm"] [NText s']))
                  = Ok shown -> hasInnerHTML shown = false).
  { destruct (String_ val); simpl; [|discriminate]. now intros [= <-]. }
  unfold entryValue. destruct val; try exact Hspan.
  destruct (startsWith s "http"); [|exact Hspan]. now intros [= <-].
Qed.

Lemma entryRow_plain (entry : string * jsval) (row : Node) :
  entryRow entry = Ok row -> hasInnerHTML row = false.
Proof.
  destruct entry as [key val]. unfold entryRow.
  destruct (entryValue val) as [shown|e] eqn:Hval; simpl; [|discriminate].
  intros [= <-]. wrapper. now rewrite (entryValue_plain _ Hval).
Qed.

(** The nodes of an indexed traversal of plain nodes are plain. *)
Lemma plain_mapiM {A : Type} (f : A -> nat -> result Node) (l : list A)
  (nodes : list Node) :
  (forall a i node, f a i = Ok node -> hasInnerHTML node = false) ->
  mapiM f l = Ok nodes ->
  hasInnerHTML (NArray nodes) = false.
Proof.
  intros Hf Hm. rewrite hasInnerHTML_NArray. apply Forall_existsb_false.
  unfold mapiM in Hm. apply mapiM_from_Ok in Hm.
  apply List.Forall_impl with (2 := Hm).
  intros node (a & j & Ha). exact (Hf a j node Ha).
Qed.

Lemma plain_mapM {A : Type} (f : A -> result Node) (l : list A)
  (nodes : list Node) :
  (forall a node, f a = Ok node -> hasInnerHTML node = false) ->
  mapM f l = Ok nodes ->
  hasInnerHTML (NArray nodes) = false.
Proof.
  intros Hf Hm. rewrite hasInnerHTML_NArray. apply Forall_existsb_false.
  apply mapM_Forall2 in Hm. induction Hm as [|a b l bs Hab _ IH];
    constructor; [exact (Hf a b Hab) | exact IH].
Qed.

Lemma images_NArray (items : list Node) :
  images (NArray items) = List.concat (List.map images items).
Proof.
  induction items as [|x l IH]; [reflexivity|].
  simpl in *. now rewrite IH.
Qed.

(** The sources and the alternate texts of the thumbnails built from the
    strings [srcs], the first of them at index [i]. *)
Lemma thumbnails_sources (srcs : list string) :
  forall i,
    let thumbnails :=
      mapi_from i
        (fun src index =>
           NElem "div"
             [("key", PNat index); className "relative aspect-square"]
             [ NElem "Image"
                 [ ("src", PStr src);
                   ("alt", PStr ("Image " ++ nat_String (index + 1)));
                   ("width", PNat 150);
                   ("height", PNat 150);
                   className "rounded-lg border object-cover w-full h-full";
                   ("unoptimized", PBool (unoptimized src)) ]
                 [] ])
        srcs in
    List.map imageSource (List.concat (List.map images thumbnails))
    = List.map (fun src => Some (src, unoptimized src)) srcs
    /\ List.map (propOf "alt") (List.concat (List.map images thumbnails))
       = List.map (fun k => Some (PStr ("Image " ++ nat_String (k + 1))))
           (List.seq i (List.length srcs)).
Proof.
  induction srcs as [|src l IH]; intros i; [split; reflexivity|].
  destruct (IH (S i)) as [IHsrc IHalt]. cbv zeta in *. split.
  - simpl. f_equal. exact IHsrc.
  - simpl. f_equal. exact IHalt.
Qed.

(** The text of a row of an object value whose value has a string. *)
Lemma entryRow_text (key : string) (val : jsval) (s : string) :
  String_ val = Ok s ->
  exists shown,
    entryRow (key, val)
    = Ok (NElem "div"
            [ ("key", PStr key);
              className
                "flex items-center justify-between p-2 rounded-md bg-muted/50" ]
            [ NElem "span" [className "font-medium capitalize text-sm"]
                [NText key; NText ":"];
              shown ])
    /\ textContent shown = s.
Proof.
  intros Hs. destruct (@entryValue_string _ val s Hs) as (shown & Hshown & Htext).
  exists shown. unfold entryRow. rewrite Hshown. now split.
Qed.

Variable item : Record.

(** Of the built-in formats only [textarea] hands markup to the rendering
    layer: without a custom render, and with option icons that carry none,
    no element of the formatter's tree sets [dangerouslySetInnerHTML] for
    any value of a [date], [url], [select], [image] or untyped column, while
    for a [textarea] column every present value does. *)
Theorem markup_only_from_textarea (value : Value) (column : ColumnConfig.t)
  (node : Node) :
  ColumnConfig.render column = None ->
  formatValue item value (Some column) = Ok node ->
  (ColumnConfig.type column <> ColumnType.textarea ->
   (forall opts option icon,
       ColumnConfig.options column = Some opts ->
       In option opts ->
       SelectOption.icon option = Some icon ->
       hasInnerHTML icon = false) ->
   hasInnerHTML node = false)
  /\ (ColumnConfig.type column = ColumnType.textarea ->
      is_nullish value = false ->
      hasInnerHTML node = true).
Proof.
  intros Hr Hf. unfold formatValue in Hf.
  destruct (is_nullish value) eqn:Hv.
  { injection Hf as <-. split; [reflexivity | discriminate]. }
  cbn [deref bind] in Hf. rewrite Hr in Hf.
  assert (Hstring : forall (build : string -> Node),
             (forall s, hasInnerHTML (build s) = false) ->
             (s <- String_ value ;; Ok (build s)) = Ok node ->
             hasInnerHTML node = false).
  { intros build Hbuild. destruct (String_ value) as [s|e]; simpl;
      [|discriminate]. intros [= <-]. apply Hbuild. }
  split.
  - intros Ht Hicons. revert Hf.
    destruct (ColumnConfig.type column); try contradiction.
    + apply Hstring. reflexivity.
    + apply Hstring. reflexivity.
    + destruct (String_ value) as [s|e] eqn:Hs;
        [|rewrite (@selectNode_throw _ value e column Hs); discriminate].
      rewrite (@selectNode_string _ value s column Hs). intros [= <-].
      destruct (ColumnConfig.options column) as [opts|] eqn:Hopts;
        [|reflexivity].
      destruct (List.find _ opts) as [option|] eqn:Hfind; [|reflexivity].
      apply List.find_some in Hfind as [Hin _].
      unfold optionBadge, js_and, optNode.
      rewrite hasInnerHTML_NElem.
      replace (List.existsb isInnerHTML _) with false
        by (simpl; destruct (SelectOption.color option) as [c|];
            [destruct (string_truthy c)|]; reflexivity).
      destruct (SelectOption.icon option) as [icon|] eqn:Hicon;
        [|reflexivity].
      pose proof (Hicons opts option icon eq_refl Hin Hicon) as Hplain.
      destruct (node_truthy icon); simpl; rewrite Hplain; reflexivity.
    + unfold imageNode.
      destruct value as [[| | | | s | elems | fields] | name |];
        try (now intros [= <-]).
      * destruct (string_truthy (trim s)); now intros [= <-].
      * destruct (Nat.ltb 0 (List.length elems)); [|now intros [= <-]].
        unfold imageGrid.
        destruct (mapiM thumbnail elems) as [thumbnails|e] eqn:Hm; simpl;
          [|discriminate].
        intros [= <-]. do 2 wrapper.
        now rewrite (plain_mapiM thumbnail elems thumbnail_plain Hm).
    + unfold defaultNode.
      destruct value as [[| | | | s | elems | fields] | name |];
        try (now intros [= <-]); try (apply Hstring; reflexivity).
      * destruct (Nat.eqb (List.length elems) 0); [now intros [= <-]|].
        destruct (mapiM tagBadge elems) as [tags|e] eqn:Hm; simpl;
          [|discriminate].
        intros [= <-]. wrapper.
        now rewrite (plain_mapiM tagBadge elems tagBadge_plain Hm).
      * cbv zeta. destruct (Nat.eqb _ 0); [now intros [= <-]|].
        destruct (mapM entryRow _) as [rows|e] eqn:Hm; simpl;
          [|discriminate].
        intros [= <-]. wrapper.
        now rewrite (plain_mapM entryRow _ entryRow_plain Hm).
  - intros Ht _. rewrite Ht in Hf.
    destruct (String_ value) as [s|e]; simpl in Hf; [|discriminate].
    injection Hf as <-. reflexivity.
Qed.

(** An object under an untyped column without a custom render: the entries
    whose value is falsy are left out; when none is left the "None
    provided" sentinel is shown; when the values of the remaining entries
    have strings there is one row per remaining entry, in the object's
    order, keyed by the entry's key and labelled with the key and a colon,
    whose text is the key, a colon and the string of the value, for a link
    as for plain text; a remaining value without a string makes the
    formatter raise. *)
Theorem untyped_object_rows (column : ColumnConfig.t)
  (obj : list (string * jsval)) :
  ColumnConfig.type column = ColumnType.untyped ->
  ColumnConfig.render column = None ->
  (List.filter (fun e => truthy (snd e)) obj = [] ->
   formatValue item (VObject obj) (Some column)
   = Ok (NElem "span" [className "text-muted-foreground italic"]
           [NText "None provided"]))
  /\ (List.filter (fun e => truthy (snd e)) obj <> [] ->
      (forall entry,
          In entry (List.filter (fun e => truthy (snd e)) obj) ->
          exists s, String_ (snd entry) = Ok s) ->
      exists rows,
        formatValue item (VObject obj) (Some column)
        = Ok (NElem "div" [className "space-y-2"] [NArray rows])
        /\ List.Forall2
             (fun (entry : string * jsval) row =>
                exists s shown,
                  String_ (snd entry) = Ok s
                  /\ row
                     = NElem "div"
                         [ ("key", PStr (fst entry));
                           className
                             "flex items-center justify-between p-2 rounded-md bg-muted/50" ]
                         [ NElem "span"
                             [className "font-medium capitalize text-sm"]
                             [NText (fst entry); NText ":"];
                           shown ]
                  /\ textContent shown = s
                  /\ textContent row = fst entry ++ ":" ++ s)
             (List.filter (fun e => truthy (snd e)) obj) rows)
  /\ (forall entry e,
      In entry (List.filter (fun e => truthy (snd e)) obj) ->
      String_ (snd entry) = Throw e ->
      exists e', formatValue item (VObject obj) (Some column) = Throw e').
Proof.
  intros Ht Hr.
  assert (Hdefault : formatValue item (VObject obj) (Some column)
                     = defaultNode (VObject obj)).
  { unfold formatValue. simpl. now rewrite Hr, Ht. }
  rewrite Hdefault. unfold defaultNode. cbv zeta. split; [|split].
  - intros Hnone. now rewrite Hnone.
  - intros Hsome Hstrings.
    destruct (List.filter (fun e => truthy (snd e)) obj) as [|e0 l0] eqn:Hkept;
      [contradiction|].
    change (Nat.eqb (List.length (e0 :: l0)) 0) with false. cbv iota.
    clear Hsome Hkept. revert Hstrings.
    generalize (e0 :: l0). intros kept Hstrings.
    assert (Hrows : exists rows,
               mapM entryRow kept = Ok rows
               /\ List.Forall2
                    (fun (entry : string * jsval) row =>
                       exists s shown,
                         String_ (snd entry) = Ok s
                         /\ row
                            = NElem "div"
                                [ ("key", PStr (fst entry));
                                  className
                                    "flex items-center justify-between p-2 rounded-md bg-muted/50" ]
                                [ NElem "span"
                                    [className "font-medium capitalize text-sm"]
                                    [NText (fst entry); NText ":"];
                                  shown ]
                         /\ textContent shown = s
                         /\ textContent row = fst entry ++ ":" ++ s)
                    kept rows).
    { induction kept as [|[key val] kept IH].
      - exists []. split; [reflexivity | constructor].
      - destruct (Hstrings (key, val) (or_introl eq_refl)) as [s Hs].
        cbn [snd] in Hs.
        destruct (@entryRow_text key val s Hs) as (shown & Hrow & Htext).
        destruct IH as (rows & Hrows & Hall);
          [intros entry Hin; apply Hstrings; now right|].
        eexists. split.
        + cbn [mapM]. rewrite Hrow, Hrows. reflexivity.
        + constructor; [|exact Hall].
          exists s, shown. repeat split; try assumption.
          cbn [fst]. simpl. rewrite Htext, !append_empty_r.
          now rewrite string_app_assoc. }
    destruct Hrows as (rows & Hrows & Hall).
    exists rows. rewrite Hrows. split; [reflexivity | exact Hall].
  - intros entry e Hin Hs.
    destruct (List.filter (fun e => truthy (snd e)) obj) as [|e0 l0];
      [contradiction|].
    change (Nat.eqb (List.length (e0 :: l0)) 0) with false. cbv iota.
    assert (Hrow : exists e', entryRow entry = Throw e').
    { destruct entry as [key val]. cbn [snd] in Hs.
      unfold entryRow, entryValue.
      destruct val; try (rewrite Hs; simpl; eauto; fail).
      discriminate Hs. }
    destruct Hrow as [e1 He1].
    destruct (mapM_In_throw entryRow (e0 :: l0) entry Hin He1) as [e' ->].
    simpl. eauto.
Qed.

(** The images of an [image] column without a custom render, read off the
    formatter's tree: a string that is not blank gives one image of that
    source; a non-empty array whose elements have strings gives one image
    per element, in order, whose source is the element's string and whose
    alternate text is "Image [i+1]" at index [i]; in both an image bypasses
    the optimizer exactly when its source starts with "data:" or "blob:". *)
Theorem image_sources (column : ColumnConfig.t) :
  ColumnConfig.type column = ColumnType.image ->
  ColumnConfig.render column = None ->
  (forall s node,
      all_space s = false ->
      formatValue item (VString s) (Some column) = Ok node ->
      List.map imageSource (images node)
      = [Some (s, startsWith s "data:" || startsWith s "blob:")]
      /\ List.map (propOf "alt") (images node) = [Some (PStr "Detail image")])
  /\ (forall elems srcs node,
      elems <> [] ->
      List.Forall2 (fun (e : jsval) src => String_ e = Ok src) elems srcs ->
      formatValue item (VArray elems) (Some column) = Ok node ->
      List.map imageSource (images node)
      = List.map
          (fun src =>
             Some (src, startsWith src "data:" || startsWith src "blob:"))
          srcs
      /\ List.map (propOf "alt") (images node)
         = List.map (fun i => Some (PStr ("Image " ++ nat_String (i + 1))))
             (List.seq 0 (List.length elems))).
Proof.
  intros Ht Hr. unfold formatValue. simpl. rewrite Hr, Ht. split.
  - intros s node Hs. simpl. apply trim_truthy_iff in Hs. rewrite Hs.
    intros [= <-]. split; reflexivity.
  - intros elems srcs node Hne Hsrcs. unfold imageNode.
    destruct elems as [|e0 l]; [contradiction|].
    change (Nat.ltb 0 (List.length (e0 :: l))) with true. cbv iota.
    unfold imageGrid, mapiM.
    rewrite (thumbnails_of_strings Hsrcs 0). cbn [bind].
    intros [= <-].
    rewrite (List.Forall2_length Hsrcs).
    destruct (thumbnails_sources srcs 0) as [Hsources Halts].
    cbv zeta in Hsources, Halts.
    match goal with
    | |- context [NElem "div" [className "space-y-3"]
                    [ NElem "div" ?props [NArray ?ts]; imageCaption ?count ]] =>
        change (images (NElem "div" [className "space-y-3"]
                  [ NElem "div" props [NArray ts]; imageCaption count ]))
          with ((images (NArray ts) ++ []) ++ [])%list
    end.
    rewrite !List.app_nil_r, images_NArray. now split.
Qed.

End Trees.

(** ** What a section and the action bar show *)

Lemma Forall2_In_l {A B : Type} (R : A -> B -> Prop) (l : list A)
  (l' : list B) (a : A) :
  List.Forall2 R l l' -> In a l -> exists b, In b l' /\ R a b.
Proof.
  induction 1 as [|x y l l' Hxy _ IH]; intros Hin; [contradiction|].
  destruct Hin as [<- | Hin].
  - exists y. split; [now left | assumption].
  - destruct (IH Hin) as [b [Hb Hab]]. exists b. split; [now right | assumption].
Qed.

Lemma filter_none {A : Type} (p : A -> bool) (l : list A) :
  (forall a, In a l -> p a = false) -> List.filter p l = [].
Proof.
  induction l as [|a l IH]; intros Hl; simpl; [reflexivity|].
  rewrite (Hl a (or_introl eq_refl)). apply IH.
  intros b Hb. apply Hl. now right.
Qed.

Lemma assoc_none (k : string) (l : list (string * string)) :
  ~ In k (List.map fst l) -> assoc k l = None.
Proof.
  induction l as [|[k' v] l IH]; intros Hk; simpl; [reflexivity|].
  destruct (String.eqb k' k) eqn:E.
  - apply String.eqb_eq in E. exfalso. apply Hk. now left.
  - apply IH. intros Hin. apply Hk. now right.
Qed.

Section Shown.
Context `{JsHost}.
Variable item : Record.

(** A key that is not an own key of the record has no own value. *)
Lemma own_absent (k : string) :
  (forall v, ~ In (k, v) item) -> own item k = None.
Proof.
  induction item as [|[k' v'] o IH]; intros Habs; simpl; [reflexivity|].
  destruct (String.eqb k' k) eqn:Hk.
  - apply String.eqb_eq in Hk. subst k'.
    exfalso. apply (Habs v'). now left.
  - apply IH. intros v Hv. apply (Habs v). now right.
Qed.

(** A key that is neither an own key of the record nor a member of
    [Object.prototype] reads as [undefined]. *)
Lemma get_absent (k : string) :
  (forall v, ~ In (k, v) item) ->
  ~ In k ("__proto__" :: List.map fst objectPrototypeFunctions) ->
  get item k = VUndefined.
Proof.
  intros Habs Hproto. unfold get. rewrite (own_absent _ Habs).
  unfold inherited.
  destruct (String.eqb k "__proto__") eqn:E.
  - apply String.eqb_eq in E. exfalso. apply Hproto. now left.
  - rewrite assoc_none; [reflexivity|].
    intros Hin. apply Hproto. now right.
Qed.

(** A record without an own [constructor] reads the inherited one. *)
Lemma get_constructor :
  (forall v, ~ In ("constructor", v) item) ->
  get item "constructor" = Builtin "Object".
Proof.
  intros Habs. unfold get. now rewrite (own_absent _ Habs).
Qed.

Variable st : Store.

(** When the formatter returns for every column of a non-empty bucket, the
    bucket's section has one row per column, in the bucket's order: the
    column's label over the value read from the record under the column's
    key, as the formatter shows it for that column. A column whose key is
    neither an own key of the record nor a member of [Object.prototype]
    still has its row, showing "Not provided"; an untyped column keyed
    "constructor" over a record without that own key shows the source text
    of the inherited function [Object]. *)
Theorem section_rows (sectionTitle : string) (fields : list loc) :
  fields <> [] ->
  (forall col,
      In col fields ->
      exists node,
        formatValue item (get item (ColumnConfig.key (st col)))
          (Some (st col)) = Ok node) ->
  exists section,
    renderFieldSection item st sectionTitle fields = Ok section
    /\ List.Forall2
         (fun col row =>
            exists formatted,
              formatValue item (get item (ColumnConfig.key (st col)))
                (Some (st col)) = Ok formatted
              /\ row
                 = NElem "div"
                     [ ("key", PStr (ColumnConfig.key (st col)));
                       className "space-y-2" ]
                     [ NElem "Label"
                         [className "text-sm font-medium text-muted-foreground"]
                         [NText (ColumnConfig.label (st col))];
                       NElem "div" [className "min-h-6"] [formatted] ])
         fields (sectionRows section)
    /\ (forall col,
        In col fields ->
        (forall v, ~ In (ColumnConfig.key (st col), v) item) ->
        ~ In (ColumnConfig.key (st col))
            ("__proto__" :: List.map fst objectPrototypeFunctions) ->
        In (NElem "div"
              [ ("key", PStr (ColumnConfig.key (st col)));
                className "space-y-2" ]
              [ NElem "Label"
                  [className "text-sm font-medium text-muted-foreground"]
                  [NText (ColumnConfig.label (st col))];
                NElem "div" [className "min-h-6"]
                  [ NElem "span" [className "text-muted-foreground italic"]
                      [NText "Not provided"] ] ])
           (sectionRows section))
    /\ (forall col,
        In col fields ->
        ColumnConfig.key (st col) = "constructor" ->
        (forall v, ~ In ("constructor", v) item) ->
        ColumnConfig.render (st col) = None ->
        ColumnConfig.type (st col) = ColumnType.untyped ->
        In (NElem "div"
              [("key", PStr "constructor"); className "space-y-2"]
              [ NElem "Label"
                  [className "text-sm font-medium text-muted-foreground"]
                  [NText (ColumnConfig.label (st col))];
                NElem "div" [className "min-h-6"]
                  [NElem "span" [] [NText (Function_toString "Object")]] ])
           (sectionRows section)).
Proof.
  intros Hne Hformats. unfold renderFieldSection.
  destruct fields as [|col0 fields']; [contradiction|].
  change (Nat.eqb (List.length (col0 :: fields')) 0) with false. cbv iota.
  set (row := fun col =>
                let column := st col in
                formatted <- formatValue item
                               (get item (ColumnConfig.key column))
                               (Some column) ;;
                Ok (fieldNode column formatted)).
  destruct (mapM_ok_in row (col0 :: fields')) as [rows [Hrows _]].
  { intros c Hc. unfold row. cbv zeta.
    destruct (Hformats c Hc) as [node Hnode].
    rewrite Hnode. simpl. eauto. }
  rewrite Hrows. cbn [bind]. eexists. split; [reflexivity|].
  cbn [sectionRows].
  assert (Hall : List.Forall2
                   (fun col r =>
                      exists formatted,
                        formatValue item (get item (ColumnConfig.key (st col)))
                          (Some (st col)) = Ok formatted
                        /\ r = fieldNode (st col) formatted)
                   (col0 :: fields') rows).
  { apply mapM_Forall2 in Hrows.
    eapply List.Forall2_impl; [|exact Hrows].
    intros c r Hr. unfold row in Hr. cbv zeta in Hr.
    destruct (formatValue item (get item (ColumnConfig.key (st c)))
                (Some (st c))) as [formatted|e]; simpl in Hr; [|discriminate].
    injection Hr as <-. now exists formatted. }
  split; [exact Hall|]. split.
  - intros col Hin Habs Hproto.
    destruct (@Forall2_In_l _ _ _ _ _ col Hall Hin)
      as (r & Hr & formatted & Hf & ->).
    rewrite (@get_absent _ Habs Hproto) in Hf. injection Hf as <-. exact Hr.
  - intros col Hin Hkey Habs Hrender Htype.
    destruct (@Forall2_In_l _ _ _ _ _ col Hall Hin)
      as (r & Hr & formatted & Hf & ->).
    rewrite Hkey, (get_constructor Habs) in Hf.
    unfold formatValue in Hf. cbn [is_nullish deref bind] in Hf.
    rewrite Hrender, Htype in Hf. injection Hf as <-.
    unfold fieldNode in Hr. rewrite Hkey in Hr. exact Hr.
Qed.


End Shown.

(** ** The sign-up form *)

Module SignUpFacts.
Import SignUpForm.

(** Every character is a lower-case letter, an upper-case letter, a digit
    or special. *)
Lemma class_cover (c : ascii) :
  lower c || upper c || digit c || special c = true.
Proof.
  unfold special. destruct (lower c || upper c || digit c); reflexivity.
Qed.

Lemma test_app (class : ascii -> bool) (s t : string) :
  test class (s ++ t) = test class s || test class t.
Proof.
  induction s as [|c s IH]; simpl; [reflexivity|].
  now rewrite IH, orb_assoc.
Qed.

Lemma length_app (s t : string) :
  String.length (s ++ t) = String.length s + String.length t.
Proof.
  induction s as [|c s IH]; simpl; [reflexivity | now rewrite IH].
Qed.

Lemma test_some_class (s : string) :
  s <> "" ->
  test lower s || test upper s || test digit s || test special s = true.
Proof.
  destruct s as [|c s]; [congruence|]. intros _. simpl.
  pose proof (class_cover c) as Hc.
  destruct (lower c), (upper c), (digit c), (special c);
    simpl in *; try discriminate; try reflexivity;
    rewrite ?orb_true_r; reflexivity.
Qed.

Lemma incr_if_b2n (cond : bool) (n : nat) : incr_if cond n = n + Nat.b2n cond.
Proof. destruct cond; simpl; lia. Qed.

(** The strength of a non-empty password counts the rules it meets. *)
Lemma strength_sum (password : string) :
  password <> "" ->
  getPasswordStrength password
  = mkStrength (rulesMet password) (at_pred labels (rulesMet password))
      (at_pred colors (rulesMet password)).
Proof.
  intros Hne. unfold getPasswordStrength, rulesMet.
  destruct password as [|c s]; [congruence|].
  cbv zeta. simpl string_truthy. cbv iota. simpl negb. cbv iota.
  rewrite !incr_if_b2n. reflexivity.
Qed.

Lemma rulesMet_range (password : string) :
  password <> "" -> 1 <= rulesMet password <= 5.
Proof.
  intros Hne. pose proof (test_some_class Hne) as Hsome. unfold rulesMet.
  destruct (Nat.leb 8 (String.length password)), (test lower password),
    (test upper password), (test digit password), (test special password);
    simpl in *; try discriminate; lia.
Qed.

Lemma strength_cases (password : string) :
  password <> "" ->
  exists k,
    1 <= k <= 5
    /\ getPasswordStrength password
       = mkStrength k (at_pred labels k) (at_pred colors k).
Proof.
  intros Hne. rewrite (strength_sum Hne).
  exists (rulesMet password). split; [now apply rulesMet_range | reflexivity].
Qed.

Lemma strength_rules (password : string) :
  strength (getPasswordStrength password)
  = if string_truthy password then rulesMet password else 0.
Proof.
  destruct password as [|c s]; [reflexivity|].
  now rewrite (@strength_sum (String c s)) by discriminate.
Qed.

Lemma b2n_orb_l (a b : bool) : Nat.b2n a <= Nat.b2n (a || b).
Proof. destruct a, b; simpl; lia. Qed.

Lemma b2n_orb_r (a b : bool) : Nat.b2n b <= Nat.b2n (a || b).
Proof. destruct a, b; simpl; lia. Qed.

Lemma b2n_leb_add (n m : nat) :
  Nat.b2n (Nat.leb 8 n) <= Nat.b2n (Nat.leb 8 (n + m)).
Proof.
  destruct (Nat.leb 8 n) eqn:Hn; [|apply Nat.le_0_l].
  apply Nat.leb_le in Hn.
  replace (Nat.leb 8 (n + m)) with true; [reflexivity|].
  symmetry. apply Nat.leb_le. lia.
Qed.

Lemma rulesMet_app (s t : string) :
  rulesMet s <= rulesMet (s ++ t) /\ rulesMet t <= rulesMet (s ++ t).
Proof.
  unfold rulesMet. rewrite length_app, !test_app.
  pose proof (b2n_leb_add (String.length s) (String.length t)).
  pose proof (b2n_leb_add (String.length t) (String.length s)) as Hlen.
  rewrite (Nat.add_comm (String.length t)) in Hlen.
  pose proof (b2n_orb_l (test lower s) (test lower t)).
  pose proof (b2n_orb_l (test upper s) (test upper t)).
  pose proof (b2n_orb_l (test digit s) (test digit t)).
  pose proof (b2n_orb_l (test special s) (test special t)).
  pose proof (b2n_orb_r (test lower s) (test lower t)).
  pose proof (b2n_orb_r (test upper s) (test upper t)).
  pose proof (b2n_orb_r (test digit s) (test digit t)).
  pose proof (b2n_orb_r (test special s) (test special t)).
  split; lia.
Qed.

(** The strength of a password is at most 5, and 0 for the empty password
    only; for every other password the label and the color are the entries
    of the two tables at the strength less one, so the empty-string
    alternative of [||] is never taken. *)
Theorem password_strength_range (password : string) :
  strength (getPasswordStrength password) <= 5
  /\ (strength (getPasswordStrength password) = 0 <-> password = "")
  /\ (password <> "" ->
      List.nth_error labels (strength (getPasswordStrength password) - 1)
      = Some (label (getPasswordStrength password))
      /\ List.nth_error colors (strength (getPasswordStrength password) - 1)
         = Some (color (getPasswordStrength password))).
Proof.
  destruct password as [|c s].
  - simpl. split; [lia|]. split; [tauto | congruence].
  - assert (Hne : String c s <> "") by discriminate.
    destruct (strength_cases Hne) as (k & Hk & ->).
    cbn [strength label color].
    split; [lia|]. split; [split; [lia | discriminate]|]. intros _.
    destruct k as [|[|[|[|[|[|k]]]]]]; try lia; split; reflexivity.
Qed.

(** Text added before or after a password never lowers its strength. *)
Theorem password_strength_monotone (s t : string) :
  strength (getPasswordStrength s) <= strength (getPasswordStrength (s ++ t))
  /\ strength (getPasswordStrength t)
     <= strength (getPasswordStrength (s ++ t)).
Proof.
  rewrite !strength_rules. destruct (rulesMet_app s t) as [Hs Ht].
  destruct s as [|c s].
  - simpl. split; [apply Nat.le_0_l|].
    destruct (string_truthy t); [reflexivity | apply Nat.le_0_l].
  - change (string_truthy (String c s ++ t)) with true.
    change (string_truthy (String c s)) with true. cbv iota.
    split; [exact Hs|].
    destruct (string_truthy t); [exact Ht | apply Nat.le_0_l].
Qed.

(** A password is "Strong", strength 5, exactly when it has at least eight
    characters and among them a lower-case letter, an upper-case letter, a
    digit and a character that is none of these; a shorter password stays
    at 4 or below. *)
Theorem password_strong_iff (password : string) :
  (strength (getPasswordStrength password) = 5
   <-> 8 <= String.length password
       /\ test lower password = true
       /\ test upper password = true
       /\ test digit password = true
       /\ test special password = true)
  /\ (label (getPasswordStrength password) = "Strong"
      <-> strength (getPasswordStrength password) = 5)
  /\ (String.length password < 8 ->
      strength (getPasswordStrength password) <= 4).
Proof.
  destruct password as [|c s].
  - simpl. split; [|split].
    + split; [discriminate | intros (Hlen & _); lia].
    + split; discriminate.
    + lia.
  - assert (Hne : String c s <> "") by discriminate.
    split; [|split].
    + rewrite strength_rules. change (string_truthy (String c s)) with true.
      cbv iota. unfold rulesMet. rewrite <- Nat.leb_le.
      destruct (Nat.leb 8 (String.length (String c s))),
        (test lower (String c s)), (test upper (String c s)),
        (test digit (String c s)), (test special (String c s));
        cbn [Nat.b2n Nat.add]; split;
        try (intros (? & ? & ? & ? & ?)); try discriminate;
        repeat split; reflexivity.
    + destruct (strength_cases Hne) as (k & Hk & ->). cbn [strength label].
      destruct k as [|[|[|[|[|[|k]]]]]]; try lia;
        split; try reflexivity; try discriminate.
    + intros Hshort. rewrite strength_rules.
      change (string_truthy (String c s)) with true. cbv iota.
      unfold rulesMet.
      replace (Nat.leb 8 (String.length (String c s))) with false
        by (symmetry; apply Nat.leb_gt; exact Hshort).
      destruct (test lower (String c s)), (test upper (String c s)),
        (test digit (String c s)), (test special (String c s));
        cbn [Nat.b2n Nat.add]; lia.
Qed.

(** The strength indicator of a non-empty password, whose strength is some
    [k] from 1 to 5 with the label and the color at position [k - 1] of the
    two tables: five bars keyed 1 to 5, of which the first [k] carry that
    color and the others are gray, over a caption that reads "Password
    strength: " and the label, red below strength 2, yellow at 2, blue at 3
    and green from 4 on. For the empty password there is no indicator. *)
Theorem strength_meter `{JsHost} (password : string) :
  strengthIndicator "" = NText ""
  /\ (password <> "" ->
      exists k label color,
        getPasswordStrength password = mkStrength k label color
        /\ 1 <= k <= 5
        /\ List.nth_error ["Very Weak"; "Weak"; "Fair"; "Good"; "Strong"]
             (k - 1) = Some label
        /\ List.nth_error
             [ "bg-red-500"; "bg-orange-500"; "bg-yellow-500"; "bg-blue-500";
               "bg-green-500" ] (k - 1) = Some color
        /\ strengthIndicator password
           = NElem "div" [className "space-y-1"]
               [ NElem "div" [className "flex space-x-1"]
                   [ NArray
                       (List.map
                          (fun level =>
                             NElem "div"
                               [ ("key", PNat level);
                                 className
                                   ("h-1 flex-1 rounded-full "
                                    ++ (if Nat.leb level k
                                        then color
                                        else "bg-gray-200 dark:bg-gray-600")) ]
                               [])
                          [1; 2; 3; 4; 5]) ];
                 NElem "p"
                   [ className
                       ("text-xs "
                        ++ (if Nat.leb 4 k
                            then "text-green-600 dark:text-green-400"
                            else if Nat.leb 3 k
                            then "text-blue-600 dark:text-blue-400"
                            else if Nat.leb 2 k
                            then "text-yellow-600 dark:text-yellow-400"
                            else "text-red-600 dark:text-red-400")) ]
                   [NText "Password strength: "; NText label] ]).
Proof.
  split; [reflexivity|]. intros Hne. unfold strengthIndicator. cbv zeta.
  destruct (strength_cases Hne) as (k & Hk & ->).
  destruct password as [|c s]; [congruence|].
  unfold js_and at 1. simpl node_truthy. cbv iota.
  exists k, (at_pred labels k), (at_pred colors k).
  destruct k as [|[|[|[|[|[|k]]]]]]; try lia;
    (split; [reflexivity|]); (split; [lia|]); repeat split.
Qed.

Lemma includes_space (s : string) :
  includes_str s " " = true <-> In space (chars s).
Proof.
  induction s as [|c s IH]; simpl.
  - split; [discriminate | contradiction].
  - rewrite orb_true_iff, IH.
    assert (Hc : Ascii.eqb " " c && startsWith s "" = true <-> c = space).
    { replace (startsWith s "") with true by (now destruct s).
      rewrite andb_true_r, Ascii.eqb_eq.
      split; [intros <- | intros ->]; reflexivity. }
    rewrite Hc. tauto.
Qed.

(** A paste into the email or a password field is stopped, with its toast,
    exactly when the pasted text has a space character; any other text,
    tabs and line breaks included, goes through and nothing is shown. A key
    press is stopped, with the toast of its field, exactly for the space
    key; any other key goes through and nothing is shown. *)
Theorem paste_blocks_spaces (pastedText : string) (h : Handled) :
  (In space (chars pastedText) ->
   handleEmailPaste pastedText h
   = mkHandled true
       (toasts h
          ++ [Sonner.mk Sonner.error
                "Spaces are not allowed in email addresses" None None])%list
   /\ handlePasswordPaste pastedText h
      = mkHandled true
          (toasts h
             ++ [Sonner.mk Sonner.error "Spaces are not allowed in passwords"
                   None None])%list)
  /\ (~ In space (chars pastedText) ->
      handleEmailPaste pastedText h = h
      /\ handlePasswordPaste pastedText h = h)
  /\ (forall key,
      key <> " " ->
      handleEmailKeyPress key h = h /\ handlePasswordKeyPress key h = h)
  /\ handleEmailKeyPress " " h
     = mkHandled true
         (toasts h
            ++ [Sonner.mk Sonner.error
                  "Spaces are not allowed in email addresses" None None])%list
  /\ handlePasswordKeyPress " " h
     = mkHandled true
         (toasts h
            ++ [Sonner.mk Sonner.error "Spaces are not allowed in passwords"
                  None None])%list.
Proof.
  unfold handleEmailPaste, handlePasswordPaste, handleEmailKeyPress,
    handlePasswordKeyPress.
  split; [|split; [|split; [|split; reflexivity]]].
  - intros Hin. apply includes_space in Hin. rewrite Hin. split; reflexivity.
  - intros Hout.
    destruct (includes_str pastedText " ") eqn:Hinc; [|split; reflexivity].
    apply includes_space in Hinc. contradiction.
  - intros key Hkey. apply String.eqb_neq in Hkey. rewrite Hkey.
    split; reflexivity.
Qed.

End SignUpFacts.

(** ** The forgotten-password form *)

Module ForgetPasswordFacts.
Import ForgetPassword.

Section Submit.
Context `{Browser}.
Variable email : string.
Variable w : World.



End Submit.

End ForgetPasswordFacts.

(** * Examples *)

Module Runs.
Import Examples.

(** The archive action is shown for the active widget and the restore action
    is not; clicking the one button logs the callback and then the close. *)
Example action_bar_of_active_item :
  List.map buttonHandler (barButtons (actionBar item onClose [archive; restore]))
  = [Some (actionClick item onClose archive)]
  /\ actionClick item onClose archive [] = ["archive"; "close"].
Proof. split; reflexivity. Qed.

(** The status of the widget matches the second option. *)
Example select_active :
  formatValue item (get item "status") (Some statusColumn)
  = Ok (NElem "Badge"
          [ ("variant", PStr "secondary");
            ("style",
              PStyle [("backgroundColor", "#00ff0020"); ("color", "#00ff00")]) ]
          [ NElem "span" [className "mr-1"] [NText "*"]; NText "Active" ]).
Proof. reflexivity. Qed.

(** Two images give two thumbnails and the caption "2 images". *)
Example image_grid_of_two :
  exists grid caption,
    formatValue item (VArray [VString "a.png"; VString "b.png"])
      (Some (column "photos" "Photos" ColumnType.image))
    = Ok (NElem "div" [className "space-y-3"] [grid; caption])
    /\ textContent caption = "2 images".
Proof. do 2 eexists. split; reflexivity. Qed.

(** Name and status only: the basic section, one separator, the meta
    section. *)
Example body_of_name_and_status :
  exists basic meta,
    bodyChildren item store [1; 2]
    = Ok [basic; Separator; NNull; NBool false; NNull; NBool false; meta]
    /\ isSeparator basic = false /\ isSeparator meta = false.
Proof. do 2 eexists. split; [reflexivity | split; reflexivity]. Qed.

(** The widget has no field [constructor] of its own: the key reads the
    function [Object] that every plain object inherits, and an untyped
    column shows its source text. *)
Example inherited_constructor :
  get item "constructor" = Builtin "Object"
  /\ formatValue item (get item "constructor")
       (Some (column "constructor" "Made by" ColumnType.untyped))
     = Ok (NElem "span" [] [NText "function Object() { [native code] }"]).
Proof. split; reflexivity. Qed.

(** An array that holds a mapping with an own [toString] has no string. *)
Example array_of_stubborn :
  String_ (VArray [VString "a"; stubborn])
  = Throw (TypeError "Cannot convert object to primitive value")
  /\ String_ (VArray [VString "a"; VNull; VObject []])
     = Ok "a,,[object Object]".
Proof. split; reflexivity. Qed.

End Runs.

(** * The statements at concrete inputs *)

(** The cover image keyed [title] is in the basic and in the media bucket:
    the four buckets of this one column hold two entries. *)
Lemma media_overlaps_basic :
  basicFields Examples.store [0] = [0]
  /\ mediaFields Examples.store [0] = [0]
  /\ ~ (forall col,
         In col (mediaFields Examples.store [0]) ->
         ~ In col (basicFields Examples.store [0]))
  /\ ~ Permutation [0]
         (basicFields Examples.store [0] ++ mediaFields Examples.store [0]
            ++ otherFields Examples.store [0]
            ++ metaFields Examples.store [0])%list.
Proof.
  split; [reflexivity|]. split; [reflexivity|]. split.
  - intros Hdisjoint. apply (Hdisjoint 0); now left.
  - intros Hperm. apply Permutation_length in Hperm. discriminate.
Qed.

Lemma buckets_cover_columns_witness :
  (forall col,
      In col [1; 2; 3] -> isMedia Examples.store col = true ->
      isBasic Examples.store col = false /\ isMeta Examples.store col = false)
  /\ Permutation [1; 2; 3]
       (basicFields Examples.store [1; 2; 3]
          ++ mediaFields Examples.store [1; 2; 3]
          ++ otherFields Examples.store [1; 2; 3]
          ++ metaFields Examples.store [1; 2; 3])%list.
Proof.
  assert (Hsep : forall col,
             In col [1; 2; 3] -> isMedia Examples.store col = true ->
             isBasic Examples.store col = false
             /\ isMeta Examples.store col = false).
  { intros col [<- | [<- | [<- | []]]]; discriminate. }
  split; [exact Hsep|].
  apply (proj2 (proj2 (proj2 (proj2
           (buckets_cover_columns Examples.store [1; 2; 3]))))).
  exact Hsep.
Defined.

Lemma render_only_on_present_values_witness :
  (forall v,
      is_nullish v = false ->
      Examples.constantRender v Examples.item
      = Examples.guardedRender v Examples.item)
  /\ formatValue Examples.item VNull
       (Some (with_render Examples.statusColumn Examples.constantRender))
     = formatValue Examples.item VNull
         (Some (with_render Examples.statusColumn Examples.guardedRender)).
Proof.
  assert (Hagree : forall v,
             is_nullish v = false ->
             Examples.constantRender v Examples.item
             = Examples.guardedRender v Examples.item).
  { intros v Hv. unfold Examples.guardedRender. now rewrite Hv. }
  split; [exact Hagree|].
  apply (proj1 (render_only_on_present_values Examples.item
                  Examples.statusColumn Examples.constantRender
                  Examples.guardedRender VNull Hagree)).
Defined.

(** A [url] column over a mapping whose own [toString] is the string "x":
    [String] raises, and the formatter with it. *)
Lemma url_of_stubborn_throws :
  ColumnConfig.render Examples.urlColumn = None
  /\ Examples.stubborn = VObject [("toString", VString "x")]
  /\ formatValue Examples.item Examples.stubborn (Some Examples.urlColumn)
     = Throw (TypeError "Cannot convert object to primitive value")
  /\ ~ (exists node,
         formatValue Examples.item Examples.stubborn
           (Some Examples.urlColumn) = Ok node).
Proof.
  split; [reflexivity|]. split; [reflexivity|]. split; [reflexivity|].
  intros [node Hnode]. discriminate Hnode.
Qed.

Lemma formatValue_total_witness :
  ColumnConfig.render Examples.dateColumn = None
  /\ formatValue Examples.item (VString "tomorrow") (Some Examples.dateColumn)
     = Ok (NElem "div" [className "flex items-center gap-2"]
             [ NElem "Calendar" [className "h-4 w-4 text-muted-foreground"] [];
               NElem "span" [] [NText "Invalid Date"] ]).
Proof.
  split; [reflexivity|].
  apply (proj1 (proj2 (proj2 (formatValue_total Examples.item
                                (VString "tomorrow")
                                Examples.dateColumn eq_refl)))
           "tomorrow");
    reflexivity.
Defined.

Lemma select_badge_witness :
  ColumnConfig.type Examples.statusColumn = ColumnType.select
  /\ ColumnConfig.render Examples.statusColumn = None
  /\ formatValue Examples.item (VString "active") (Some Examples.statusColumn)
     = Ok (optionBadge
             (SelectOption.mk "active" "Active" (Some "#00ff00")
                (Some (NText "*")))).
Proof.
  split; [reflexivity|]. split; [reflexivity|].
  apply (proj1 (select_badge Examples.item Examples.statusColumn
                  (VString "active") eq_refl eq_refl eq_refl)
           "active"
           [SelectOption.mk "draft" "Draft" None None]
           (SelectOption.mk "active" "Active" (Some "#00ff00")
              (Some (NText "*")))
           []).
  - reflexivity.
  - reflexivity.
  - intros o [<- | []]. discriminate.
  - reflexivity.
Defined.

Lemma image_column_witness :
  ColumnConfig.type Examples.photoColumn = ColumnType.image
  /\ ColumnConfig.render Examples.photoColumn = None
  /\ formatValue Examples.item (VString "https://x/a.png")
       (Some Examples.photoColumn)
     = Ok (NElem "div" [className "space-y-2"]
             [ NElem "div" [className "relative w-full max-w-md mx-auto"]
                 [ NElem "Image"
                     [ ("src", PStr "https://x/a.png");
                       ("alt", PStr "Detail image");
                       ("width", PNat 400);
                       ("height", PNat 300);
                       className "rounded-lg border object-cover w-full";
                       ("unoptimized", PBool false) ]
                     [] ] ])
  /\ formatValue Examples.item (VString "  ") (Some Examples.photoColumn)
     = Ok (NElem "span" [className "text-muted-foreground italic"]
             [NText "No image"]).
Proof.
  split; [reflexivity|]. split; [reflexivity|].
  pose proof (image_column Examples.item Examples.photoColumn
                eq_refl eq_refl)
    as (Hsingle & _ & _ & Hblank).
  split; [apply (Hsingle "https://x/a.png") | apply Hblank]; reflexivity.
Defined.

Lemma textarea_inner_html_witness :
  ColumnConfig.type Examples.notesColumn = ColumnType.textarea
  /\ ColumnConfig.render Examples.notesColumn = None
  /\ formatValue Examples.item (VString Examples.markup)
       (Some Examples.notesColumn)
     = Ok (NElem "div" [className "prose prose-sm max-w-none"]
             [ NElem "div"
                 [ className "whitespace-pre-wrap text-sm leading-relaxed";
                   ("dangerouslySetInnerHTML", PInnerHTML "<b>a</b><br>b") ]
                 [] ]).
Proof.
  split; [reflexivity|]. split; [reflexivity|].
  exact (proj1 (textarea_inner_html Examples.item Examples.notesColumn
                  (VString Examples.markup) eq_refl eq_refl eq_refl)
           Examples.markup eq_refl).
Defined.


Lemma untyped_array_tags_witness :
  ColumnConfig.type Examples.tagsColumn = ColumnType.untyped
  /\ ColumnConfig.render Examples.tagsColumn = None
  /\ exists tags,
      formatValue Examples.item (VArray [VString "x"; VString "y"])
        (Some Examples.tagsColumn)
      = Ok (NElem "div" [className "flex flex-wrap gap-1"] [NArray tags])
      /\ List.map textContent tags = ["x"; "y"].
Proof.
  split; [reflexivity|]. split; [reflexivity|].
  destruct (proj1 (proj2 (untyped_array_tags Examples.item
                            Examples.tagsColumn
                            [VString "x"; VString "y"] eq_refl eq_refl))
              ["x"; "y"])
    as (tags & Htags & _ & _ & Htexts).
  - discriminate.
  - repeat constructor.
  - exists tags. split; [exact Htags | exact Htexts].
Defined.

Lemma email_is_basic_witness :
  In 5 [4; 5]
  /\ ColumnConfig.key (Examples.contacts 5) = "email"
  /\ In 5 (basicFields Examples.contacts [4; 5])
  /\ ~ In 5 (otherFields Examples.contacts [4; 5]).
Proof.
  split; [right; now left|]. split; [reflexivity|].
  apply (email_is_basic Examples.contacts [4; 5] 5);
    [right; now left | reflexivity].
Defined.

Lemma modal_renders_witness :
  [1; 2] <> []
  /\ (forall col,
        In col [1; 2] ->
        exists node,
          formatValue Examples.item
            (get Examples.item (ColumnConfig.key (Examples.store col)))
            (Some (Examples.store col)) = Ok node)
  /\ exists tree,
      DynamicDetailsModal true Examples.onClose Examples.item Examples.store
        [1; 2] None (Some [Examples.archive; Examples.restore]) None
      = Ok tree.
Proof.
  assert (Hformats : forall col,
             In col [1; 2] ->
             exists node,
               formatValue Examples.item
                 (get Examples.item (ColumnConfig.key (Examples.store col)))
                 (Some (Examples.store col)) = Ok node).
  { intros col [<- | [<- | []]]; eexists; reflexivity. }
  split; [discriminate|]. split; [exact Hformats|].
  apply (proj1 (modal_renders Examples.item Examples.store true
                  Examples.onClose [1; 2] None
                  (Some [Examples.archive; Examples.restore]) None)).
  - discriminate.
  - exact Hformats.
Defined.

Lemma markup_only_from_textarea_witness :
  ColumnConfig.render Examples.dateColumn = None
  /\ formatValue Examples.item (VString "<b>now</b>") (Some Examples.dateColumn)
     = Ok (dateNode "<b>now</b>")
  /\ hasInnerHTML (dateNode "<b>now</b>") = false.
Proof.
  split; [reflexivity|]. split; [reflexivity|].
  apply (proj1 (@markup_only_from_textarea _ Examples.item
                  (VString "<b>now</b>") Examples.dateColumn
                  (dateNode "<b>now</b>") eq_refl eq_refl)).
  - discriminate.
  - intros opts option icon Hopts. discriminate Hopts.
Defined.

Lemma untyped_object_rows_witness :
  ColumnConfig.type Examples.linksColumn = ColumnType.untyped
  /\ ColumnConfig.render Examples.linksColumn = None
  /\ exists rows,
      formatValue Examples.item (VObject Examples.links)
        (Some Examples.linksColumn)
      = Ok (NElem "div" [className "space-y-2"] [NArray rows])
      /\ List.length rows = 2.
Proof.
  split; [reflexivity|]. split; [reflexivity|].
  destruct (proj1 (proj2 (untyped_object_rows Examples.item
                            Examples.linksColumn
                            Examples.links eq_refl eq_refl)))
    as (rows & Hrows & Hall).
  - discriminate.
  - intros entry [<- | [<- | []]]; eexists; reflexivity.
  - exists rows. split; [exact Hrows|].
    symmetry. exact (List.Forall2_length Hall).
Defined.

Lemma image_sources_witness :
  ColumnConfig.type Examples.photoColumn = ColumnType.image
  /\ ColumnConfig.render Examples.photoColumn = None
  /\ exists node,
      formatValue Examples.item
        (VArray [VString "a.png"; VString "data:image/png;base64,AA"])
        (Some Examples.photoColumn) = Ok node
      /\ List.map imageSource (images node)
         = [Some ("a.png", false); Some ("data:image/png;base64,AA", true)]
      /\ List.map (propOf "alt") (images node)
         = [Some (PStr "Image 1"); Some (PStr "Image 2")].
Proof.
  split; [reflexivity|]. split; [reflexivity|].
  eexists. split; [reflexivity|].
  apply (proj2 (image_sources Examples.item Examples.photoColumn
                  eq_refl eq_refl)
           [VString "a.png"; VString "data:image/png;base64,AA"]
           ["a.png"; "data:image/png;base64,AA"]);
    [discriminate | repeat constructor | reflexivity].
Defined.

Lemma section_rows_witness :
  [1; 4] <> []
  /\ exists section,
      renderFieldSection Examples.item Examples.store "Details" [1; 4]
      = Ok section
      /\ In (NElem "div" [("key", PStr "notes"); className "space-y-2"]
               [ NElem "Label"
                   [className "text-sm font-medium text-muted-foreground"]
                   [NText "Notes"];
                 NElem "div" [className "min-h-6"]
                   [ NElem "span" [className "text-muted-foreground italic"]
                       [NText "Not provided"] ] ])
           (sectionRows section).
Proof.
  split; [discriminate|].
  destruct (@section_rows _ Examples.item Examples.store "Details" [1; 4])
    as (section & Hsection & _ & Hmissing & _).
  - discriminate.
  - intros col [<- | [<- | []]]; eexists; reflexivity.
  - exists section. split; [exact Hsection|].
    apply (Hmissing 4); [right; now left | |].
    + intros v [Hv | [Hv | []]]; discriminate.
    + intros Hin. repeat (destruct Hin as [Hin | Hin]; [discriminate Hin|]).
      exact Hin.
Defined.


Lemma strength_meter_witness :
  "Demo123456" <> ""
  /\ exists k label color,
      SignUpForm.getPasswordStrength "Demo123456"
      = SignUpForm.mkStrength k label color
      /\ k = 4 /\ label = "Good" /\ color = "bg-blue-500".
Proof.
  split; [discriminate|].
  destruct (proj2 (SignUpFacts.strength_meter "Demo123456"))
    as (k & label & color & Hresult & _); [discriminate|].
  exists k, label, color. split; [exact Hresult|].
  injection Hresult as <- <- <-. repeat split.
Defined.


